(** * SurfaceMediaSource: the buffer-queue consumer of libstagefright

    A shallow embedding of [media/libstagefright/SurfaceMediaSource.cpp]:
    the slot table, the FIFO of ready slot indices, the connection and
    capacity operations, the blocking [read] and the return path
    [signalBufferReturned], followed by the properties of the
    specification that concern them.

    Every public operation of the class runs under [mMutex]; an operation
    is therefore modelled as one atomic function from the state before the
    call to an [Outcome]: the result, the state after the call and the
    condition-variable signals the call has issued. *)

From Stdlib Require Import ZArith Lia List Bool.
From coqutil Require Import Byte Word.LittleEndianList.
From stdpp Require Import base option list.

Local Open Scope Z_scope.

(** ** Constants of the headers

    [NUM_BUFFER_SLOTS], [MIN_SYNC_BUFFER_SLOTS], [MIN_ASYNC_BUFFER_SLOTS],
    [INVALID_BUFFER_SLOT], [kMetadataBufferTypeGrallocSource],
    [BufferQueue::NUM_BUFFER_SLOTS] and the size of a [buffer_handle_t]
    are fixed in headers and not in [SurfaceMediaSource.cpp].  The
    development is parametric in them. *)

Class HeaderConstants : Type := {
  NUM_BUFFER_SLOTS : Z;
  MIN_SYNC_BUFFER_SLOTS : Z;
  MIN_ASYNC_BUFFER_SLOTS : Z;
  INVALID_BUFFER_SLOT : Z;
  kMetadataBufferTypeGrallocSource : Z;
  sizeof_buffer_handle_t : nat;
  BufferQueue_NUM_BUFFER_SLOTS : Z
}.

(** ** Results

    [status_t] with the names the source returns.  [NO_ERROR] is [OK];
    [NEG_EINVAL] stands for the expression [-EINVAL].  The numbers behind
    the names are fixed in [utils/Errors.h] and [errno.h]; nothing below
    depends on [BAD_VALUE] and [-EINVAL] being different results. *)

Inductive status_t : Set :=
| OK
| BAD_VALUE
| INVALID_OPERATION
| NO_INIT
| NEG_EINVAL
| ERROR_END_OF_STREAM.

Abbreviation NO_ERROR := OK (only parsing).

(** The [int api] argument of [connect] and [disconnect]: the four
    producer identities the [switch] names, the value [mConnectedApi] has
    when nobody is connected, and every other integer. *)

Inductive api_t : Set :=
| NO_CONNECTED_API
| NATIVE_WINDOW_API_EGL
| NATIVE_WINDOW_API_CPU
| NATIVE_WINDOW_API_MEDIA
| NATIVE_WINDOW_API_CAMERA
| OTHER_API (n : Z).

Definition api_eqb (a b : api_t) : bool :=
  match a, b with
  | NO_CONNECTED_API, NO_CONNECTED_API => true
  | NATIVE_WINDOW_API_EGL, NATIVE_WINDOW_API_EGL => true
  | NATIVE_WINDOW_API_CPU, NATIVE_WINDOW_API_CPU => true
  | NATIVE_WINDOW_API_MEDIA, NATIVE_WINDOW_API_MEDIA => true
  | NATIVE_WINDOW_API_CAMERA, NATIVE_WINDOW_API_CAMERA => true
  | OTHER_API n, OTHER_API m => n =? m
  | _, _ => false
  end.

(** The [case] labels of the two [switch (api)] statements. *)

Definition is_producer_api (a : api_t) : bool :=
  match a with
  | NATIVE_WINDOW_API_EGL | NATIVE_WINDOW_API_CPU
  | NATIVE_WINDOW_API_MEDIA | NATIVE_WINDOW_API_CAMERA => true
  | _ => false
  end.

(** ** Data model *)

Inductive BufferState : Set := FREE | DEQUEUED | QUEUED.

Definition BufferState_eqb (a b : BufferState) : bool :=
  match a, b with
  | FREE, FREE | DEQUEUED, DEQUEUED | QUEUED, QUEUED => true
  | _, _ => false
  end.

(** A [GraphicBuffer], as far as this file looks at one: its native
    handle (a pointer, kept as its integer value) and its size. *)

Record GraphicBuffer : Type := mkGraphicBuffer {
  handle : Z;
  width : Z;
  height : Z
}.

(** [sp<GraphicBuffer>] is [option GraphicBuffer]; [None] is the null
    reference. *)

Record BufferSlot : Type := mkBufferSlot {
  mGraphicBuffer : option GraphicBuffer;
  mBufferState : BufferState;
  mRequestBufferCalled : bool;
  mTimestamp : Z
}.

(** The record handed to the encoder.  [mb_data] is the byte block the
    [MediaBuffer] owns; the other fields are what [read] sets on it. *)

Record MediaBuffer : Type := mkMediaBuffer {
  mb_data : list byte;
  mb_observer : bool;
  mb_refcount : Z;
  mb_kKeyTime : option Z
}.

Inductive Condition : Set :=
| mDequeueCondition
| mFrameAvailableCondition
| mFrameCompleteCondition.

(** What a call does besides changing the state. *)

Inductive Event : Set :=
| Signal (c : Condition)
| Broadcast (c : Condition)
| ListenerCalled
| RecordReleased.

Record State : Type := mkState {
  mSlots : list BufferSlot;
  mQueue : list Z;
  mBufferCount : Z;
  mServerBufferCount : Z;
  mClientBufferCount : Z;
  mSynchronousMode : bool;
  mStopped : bool;
  mConnectedApi : api_t;
  mCurrentSlot : Z;
  mCurrentBuf : option GraphicBuffer;
  mCurrentTimestamp : Z;
  mNumFramesEncoded : Z;
  mDefaultWidth : Z;
  mDefaultHeight : Z;
  mFrameRate : Z;
  mStartTimeNs : Z;
  mFrameAvailableListener : bool;
  mBufferSlot : list (option GraphicBuffer)
}.

(** How a call can end. *)

Inductive Outcome (A : Type) : Type :=
| Done (a : A) (s : State) (evs : list Event)
    (* the call returns [a] *)
| Blocked
    (* the caller waits on a condition only another thread can signal *)
| Fatal
    (* a failed CHECK: the process aborts *)
| Undefined.
    (* an access outside an array or through a null reference *)

Arguments Done {A} a s evs.
Arguments Blocked {A}.
Arguments Fatal {A}.
Arguments Undefined {A}.

(** *** Field updates *)

Definition set_mSlots (v : list BufferSlot) (s : State) : State :=
  {| mSlots := v; mQueue := mQueue s; mBufferCount := mBufferCount s;
     mServerBufferCount := mServerBufferCount s;
     mClientBufferCount := mClientBufferCount s;
     mSynchronousMode := mSynchronousMode s; mStopped := mStopped s;
     mConnectedApi := mConnectedApi s; mCurrentSlot := mCurrentSlot s;
     mCurrentBuf := mCurrentBuf s; mCurrentTimestamp := mCurrentTimestamp s;
     mNumFramesEncoded := mNumFramesEncoded s;
     mDefaultWidth := mDefaultWidth s; mDefaultHeight := mDefaultHeight s;
     mFrameRate := mFrameRate s; mStartTimeNs := mStartTimeNs s;
     mFrameAvailableListener := mFrameAvailableListener s;
     mBufferSlot := mBufferSlot s |}.

Definition set_mQueue (v : list Z) (s : State) : State :=
  {| mSlots := mSlots s; mQueue := v; mBufferCount := mBufferCount s;
     mServerBufferCount := mServerBufferCount s;
     mClientBufferCount := mClientBufferCount s;
     mSynchronousMode := mSynchronousMode s; mStopped := mStopped s;
     mConnectedApi := mConnectedApi s; mCurrentSlot := mCurrentSlot s;
     mCurrentBuf := mCurrentBuf s; mCurrentTimestamp := mCurrentTimestamp s;
     mNumFramesEncoded := mNumFramesEncoded s;
     mDefaultWidth := mDefaultWidth s; mDefaultHeight := mDefaultHeight s;
     mFrameRate := mFrameRate s; mStartTimeNs := mStartTimeNs s;
     mFrameAvailableListener := mFrameAvailableListener s;
     mBufferSlot := mBufferSlot s |}.

Definition set_mBufferCount (v : Z) (s : State) : State :=
  {| mSlots := mSlots s; mQueue := mQueue s; mBufferCount := v;
     mServerBufferCount := mServerBufferCount s;
     mClientBufferCount := mClientBufferCount s;
     mSynchronousMode := mSynchronousMode s; mStopped := mStopped s;
     mConnectedApi := mConnectedApi s; mCurrentSlot := mCurrentSlot s;
     mCurrentBuf := mCurrentBuf s; mCurrentTimestamp := mCurrentTimestamp s;
     mNumFramesEncoded := mNumFramesEncoded s;
     mDefaultWidth := mDefaultWidth s; mDefaultHeight := mDefaultHeight s;
     mFrameRate := mFrameRate s; mStartTimeNs := mStartTimeNs s;
     mFrameAvailableListener := mFrameAvailableListener s;
     mBufferSlot := mBufferSlot s |}.

Definition set_mServerBufferCount (v : Z) (s : State) : State :=
  {| mSlots := mSlots s; mQueue := mQueue s; mBufferCount := mBufferCount s;
     mServerBufferCount := v;
     mClientBufferCount := mClientBufferCount s;
     mSynchronousMode := mSynchronousMode s; mStopped := mStopped s;
     mConnectedApi := mConnectedApi s; mCurrentSlot := mCurrentSlot s;
     mCurrentBuf := mCurrentBuf s; mCurrentTimestamp := mCurrentTimestamp s;
     mNumFramesEncoded := mNumFramesEncoded s;
     mDefaultWidth := mDefaultWidth s; mDefaultHeight := mDefaultHeight s;
     mFrameRate := mFrameRate s; mStartTimeNs := mStartTimeNs s;
     mFrameAvailableListener := mFrameAvailableListener s;
     mBufferSlot := mBufferSlot s |}.

Definition set_mClientBufferCount (v : Z) (s : State) : State :=
  {| mSlots := mSlots s; mQueue := mQueue s; mBufferCount := mBufferCount s;
     mServerBufferCount := mServerBufferCount s;
     mClientBufferCount := v;
     mSynchronousMode := mSynchronousMode s; mStopped := mStopped s;
     mConnectedApi := mConnectedApi s; mCurrentSlot := mCurrentSlot s;
     mCurrentBuf := mCurrentBuf s; mCurrentTimestamp := mCurrentTimestamp s;
     mNumFramesEncoded := mNumFramesEncoded s;
     mDefaultWidth := mDefaultWidth s; mDefaultHeight := mDefaultHeight s;
     mFrameRate := mFrameRate s; mStartTimeNs := mStartTimeNs s;
     mFrameAvailableListener := mFrameAvailableListener s;
     mBufferSlot := mBufferSlot s |}.

Definition set_mSynchronousMode (v : bool) (s : State) : State :=
  {| mSlots := mSlots s; mQueue := mQueue s; mBufferCount := mBufferCount s;
     mServerBufferCount := mServerBufferCount s;
     mClientBufferCount := mClientBufferCount s;
     mSynchronousMode := v; mStopped := mStopped s;
     mConnectedApi := mConnectedApi s; mCurrentSlot := mCurrentSlot s;
     mCurrentBuf := mCurrentBuf s; mCurrentTimestamp := mCurrentTimestamp s;
     mNumFramesEncoded := mNumFramesEncoded s;
     mDefaultWidth := mDefaultWidth s; mDefaultHeight := mDefaultHeight s;
     mFrameRate := mFrameRate s; mStartTimeNs := mStartTimeNs s;
     mFrameAvailableListener := mFrameAvailableListener s;
     mBufferSlot := mBufferSlot s |}.

Definition set_mStopped (v : bool) (s : State) : State :=
  {| mSlots := mSlots s; mQueue := mQueue s; mBufferCount := mBufferCount s;
     mServerBufferCount := mServerBufferCount s;
     mClientBufferCount := mClientBufferCount s;
     mSynchronousMode := mSynchronousMode s; mStopped := v;
     mConnectedApi := mConnectedApi s; mCurrentSlot := mCurrentSlot s;
     mCurrentBuf := mCurrentBuf s; mCurrentTimestamp := mCurrentTimestamp s;
     mNumFramesEncoded := mNumFramesEncoded s;
     mDefaultWidth := mDefaultWidth s; mDefaultHeight := mDefaultHeight s;
     mFrameRate := mFrameRate s; mStartTimeNs := mStartTimeNs s;
     mFrameAvailableListener := mFrameAvailableListener s;
     mBufferSlot := mBufferSlot s |}.

Definition set_mConnectedApi (v : api_t) (s : State) : State :=
  {| mSlots := mSlots s; mQueue := mQueue s; mBufferCount := mBufferCount s;
     mServerBufferCount := mServerBufferCount s;
     mClientBufferCount := mClientBufferCount s;
     mSynchronousMode := mSynchronousMode s; mStopped := mStopped s;
     mConnectedApi := v; mCurrentSlot := mCurrentSlot s;
     mCurrentBuf := mCurrentBuf s; mCurrentTimestamp := mCurrentTimestamp s;
     mNumFramesEncoded := mNumFramesEncoded s;
     mDefaultWidth := mDefaultWidth s; mDefaultHeight := mDefaultHeight s;
     mFrameRate := mFrameRate s; mStartTimeNs := mStartTimeNs s;
     mFrameAvailableListener := mFrameAvailableListener s;
     mBufferSlot := mBufferSlot s |}.

Definition set_mCurrentSlot (v : Z) (s : State) : State :=
  {| mSlots := mSlots s; mQueue := mQueue s; mBufferCount := mBufferCount s;
     mServerBufferCount := mServerBufferCount s;
     mClientBufferCount := mClientBufferCount s;
     mSynchronousMode := mSynchronousMode s; mStopped := mStopped s;
     mConnectedApi := mConnectedApi s; mCurrentSlot := v;
     mCurrentBuf := mCurrentBuf s; mCurrentTimestamp := mCurrentTimestamp s;
     mNumFramesEncoded := mNumFramesEncoded s;
     mDefaultWidth := mDefaultWidth s; mDefaultHeight := mDefaultHeight s;
     mFrameRate := mFrameRate s; mStartTimeNs := mStartTimeNs s;
     mFrameAvailableListener := mFrameAvailableListener s;
     mBufferSlot := mBufferSlot s |}.

Definition set_mCurrentBuf (v : option GraphicBuffer) (s : State) : State :=
  {| mSlots := mSlots s; mQueue := mQueue s; mBufferCount := mBufferCount s;
     mServerBufferCount := mServerBufferCount s;
     mClientBufferCount := mClientBufferCount s;
     mSynchronousMode := mSynchronousMode s; mStopped := mStopped s;
     mConnectedApi := mConnectedApi s; mCurrentSlot := mCurrentSlot s;
     mCurrentBuf := v; mCurrentTimestamp := mCurrentTimestamp s;
     mNumFramesEncoded := mNumFramesEncoded s;
     mDefaultWidth := mDefaultWidth s; mDefaultHeight := mDefaultHeight s;
     mFrameRate := mFrameRate s; mStartTimeNs := mStartTimeNs s;
     mFrameAvailableListener := mFrameAvailableListener s;
     mBufferSlot := mBufferSlot s |}.

Definition set_mCurrentTimestamp (v : Z) (s : State) : State :=
  {| mSlots := mSlots s; mQueue := mQueue s; mBufferCount := mBufferCount s;
     mServerBufferCount := mServerBufferCount s;
     mClientBufferCount := mClientBufferCount s;
     mSynchronousMode := mSynchronousMode s; mStopped := mStopped s;
     mConnectedApi := mConnectedApi s; mCurrentSlot := mCurrentSlot s;
     mCurrentBuf := mCurrentBuf s; mCurrentTimestamp := v;
     mNumFramesEncoded := mNumFramesEncoded s;
     mDefaultWidth := mDefaultWidth s; mDefaultHeight := mDefaultHeight s;
     mFrameRate := mFrameRate s; mStartTimeNs := mStartTimeNs s;
     mFrameAvailableListener := mFrameAvailableListener s;
     mBufferSlot := mBufferSlot s |}.

Definition set_mNumFramesEncoded (v : Z) (s : State) : State :=
  {| mSlots := mSlots s; mQueue := mQueue s; mBufferCount := mBufferCount s;
     mServerBufferCount := mServerBufferCount s;
     mClientBufferCount := mClientBufferCount s;
     mSynchronousMode := mSynchronousMode s; mStopped := mStopped s;
     mConnectedApi := mConnectedApi s; mCurrentSlot := mCurrentSlot s;
     mCurrentBuf := mCurrentBuf s; mCurrentTimestamp := mCurrentTimestamp s;
     mNumFramesEncoded := v;
     mDefaultWidth := mDefaultWidth s; mDefaultHeight := mDefaultHeight s;
     mFrameRate := mFrameRate s; mStartTimeNs := mStartTimeNs s;
     mFrameAvailableListener := mFrameAvailableListener s;
     mBufferSlot := mBufferSlot s |}.

Definition set_mFrameRate (v : Z) (s : State) : State :=
  {| mSlots := mSlots s; mQueue := mQueue s; mBufferCount := mBufferCount s;
     mServerBufferCount := mServerBufferCount s;
     mClientBufferCount := mClientBufferCount s;
     mSynchronousMode := mSynchronousMode s; mStopped := mStopped s;
     mConnectedApi := mConnectedApi s; mCurrentSlot := mCurrentSlot s;
     mCurrentBuf := mCurrentBuf s; mCurrentTimestamp := mCurrentTimestamp s;
     mNumFramesEncoded := mNumFramesEncoded s;
     mDefaultWidth := mDefaultWidth s; mDefaultHeight := mDefaultHeight s;
     mFrameRate := v; mStartTimeNs := mStartTimeNs s;
     mFrameAvailableListener := mFrameAvailableListener s;
     mBufferSlot := mBufferSlot s |}.

Definition set_mStartTimeNs (v : Z) (s : State) : State :=
  {| mSlots := mSlots s; mQueue := mQueue s; mBufferCount := mBufferCount s;
     mServerBufferCount := mServerBufferCount s;
     mClientBufferCount := mClientBufferCount s;
     mSynchronousMode := mSynchronousMode s; mStopped := mStopped s;
     mConnectedApi := mConnectedApi s; mCurrentSlot := mCurrentSlot s;
     mCurrentBuf := mCurrentBuf s; mCurrentTimestamp := mCurrentTimestamp s;
     mNumFramesEncoded := mNumFramesEncoded s;
     mDefaultWidth := mDefaultWidth s; mDefaultHeight := mDefaultHeight s;
     mFrameRate := mFrameRate s; mStartTimeNs := v;
     mFrameAvailableListener := mFrameAvailableListener s;
     mBufferSlot := mBufferSlot s |}.

Definition set_mFrameAvailableListener (v : bool) (s : State) : State :=
  {| mSlots := mSlots s; mQueue := mQueue s; mBufferCount := mBufferCount s;
     mServerBufferCount := mServerBufferCount s;
     mClientBufferCount := mClientBufferCount s;
     mSynchronousMode := mSynchronousMode s; mStopped := mStopped s;
     mConnectedApi := mConnectedApi s; mCurrentSlot := mCurrentSlot s;
     mCurrentBuf := mCurrentBuf s; mCurrentTimestamp := mCurrentTimestamp s;
     mNumFramesEncoded := mNumFramesEncoded s;
     mDefaultWidth := mDefaultWidth s; mDefaultHeight := mDefaultHeight s;
     mFrameRate := mFrameRate s; mStartTimeNs := mStartTimeNs s;
     mFrameAvailableListener := v;
     mBufferSlot := mBufferSlot s |}.

Definition set_mBufferSlot (v : list (option GraphicBuffer)) (s : State)
  : State :=
  {| mSlots := mSlots s; mQueue := mQueue s; mBufferCount := mBufferCount s;
     mServerBufferCount := mServerBufferCount s;
     mClientBufferCount := mClientBufferCount s;
     mSynchronousMode := mSynchronousMode s; mStopped := mStopped s;
     mConnectedApi := mConnectedApi s; mCurrentSlot := mCurrentSlot s;
     mCurrentBuf := mCurrentBuf s; mCurrentTimestamp := mCurrentTimestamp s;
     mNumFramesEncoded := mNumFramesEncoded s;
     mDefaultWidth := mDefaultWidth s; mDefaultHeight := mDefaultHeight s;
     mFrameRate := mFrameRate s; mStartTimeNs := mStartTimeNs s;
     mFrameAvailableListener := mFrameAvailableListener s;
     mBufferSlot := v |}.

(** Arithmetic of the signed C integers: the value is kept in [Z] and
    wrapped to the width of the variable where the source computes. *)

Definition wrap_signed (bits : Z) (x : Z) : Z :=
  (x + 2 ^ (bits - 1)) mod 2 ^ bits - 2 ^ (bits - 1).

(** ** The operations *)

Section SurfaceMediaSource.

Context `{HC : HeaderConstants}.

(** [for (int i = 0; i < n; i++)]: the indices the loop visits. *)

Definition loop_indices (n : Z) : list nat := seq 0 (Z.to_nat n).

Definition free_slot (sl : BufferSlot) : BufferSlot :=
  {| mGraphicBuffer := None;
     mBufferState := FREE;
     mRequestBufferCalled := mRequestBufferCalled sl;
     mTimestamp := mTimestamp sl |}.

Definition set_slot_state (st : BufferState) (sl : BufferSlot) : BufferSlot :=
  {| mGraphicBuffer := mGraphicBuffer sl;
     mBufferState := st;
     mRequestBufferCalled := mRequestBufferCalled sl;
     mTimestamp := mTimestamp sl |}.

Definition set_slot_requested (sl : BufferSlot) : BufferSlot :=
  {| mGraphicBuffer := mGraphicBuffer sl;
     mBufferState := mBufferState sl;
     mRequestBufferCalled := true;
     mTimestamp := mTimestamp sl |}.

Definition freeAllBuffersLocked (s : State) : State :=
  set_mSlots
    (foldl (fun slots i => alter free_slot i slots) (mSlots s)
       (loop_indices NUM_BUFFER_SLOTS))
    s.

Definition setBufferCountServerLocked (bufferCount : Z) (s : State)
  : Outcome status_t :=
  if bufferCount >? NUM_BUFFER_SLOTS then Done BAD_VALUE s []
  else if bufferCount =? mBufferCount s then Done OK s []
  else if (mClientBufferCount s =? 0) && (bufferCount >=? mBufferCount s)
  then
    Done OK
      (set_mServerBufferCount bufferCount (set_mBufferCount bufferCount s))
      [Signal mDequeueCondition]
  else if bufferCount <? 2 then Done BAD_VALUE s []
  else Done OK (set_mServerBufferCount bufferCount s) [].

Definition setBufferCountServer (bufferCount : Z) (s : State)
  : Outcome status_t :=
  setBufferCountServerLocked bufferCount s.

(** The first loop of [setBufferCount]: [Some true] when it meets a
    DEQUEUED slot, [None] when an index falls outside [mSlots]. *)

Fixpoint client_owns_buffers (slots : list BufferSlot) (ids : list nat)
  : option bool :=
  match ids with
  | [] => Some false
  | i :: rest =>
      match slots !! i with
      | None => None
      | Some sl =>
          if BufferState_eqb (mBufferState sl) DEQUEUED then Some true
          else client_owns_buffers slots rest
      end
  end.

Definition setBufferCount (bufferCount : Z) (s : State) : Outcome status_t :=
  if bufferCount >? NUM_BUFFER_SLOTS then Done BAD_VALUE s []
  else
    match client_owns_buffers (mSlots s) (loop_indices (mBufferCount s)) with
    | None => Undefined
    | Some true => Done INVALID_OPERATION s []
    | Some false =>
        if bufferCount =? 0 then
          let minBufferSlots :=
            if mSynchronousMode s then MIN_SYNC_BUFFER_SLOTS
            else MIN_ASYNC_BUFFER_SLOTS in
          let s1 := set_mClientBufferCount 0 s in
          let bufferCount' :=
            if mServerBufferCount s1 >=? minBufferSlots
            then mServerBufferCount s1 else minBufferSlots in
          setBufferCountServerLocked bufferCount' s1
        else if bufferCount <? MIN_ASYNC_BUFFER_SLOTS then Done BAD_VALUE s []
        else
          Done OK
            (freeAllBuffersLocked
               (set_mQueue []
                  (set_mCurrentSlot INVALID_BUFFER_SLOT
                     (set_mClientBufferCount bufferCount
                        (set_mBufferCount bufferCount s)))))
            [Signal mDequeueCondition]
    end.

(** [requestBuffer] returns the status and, on success, the reference
    written to [*buf]. *)

Definition requestBuffer (slot : Z) (s : State)
  : Outcome (status_t * option (option GraphicBuffer)) :=
  if (slot <? 0) || (mBufferCount s <=? slot) then Done (BAD_VALUE, None) s []
  else
    match mSlots s !! Z.to_nat slot with
    | None => Undefined
    | Some sl =>
        Done (NO_ERROR, Some (mGraphicBuffer sl))
          (set_mSlots (alter set_slot_requested (Z.to_nat slot) (mSlots s)) s)
          []
    end.

Definition setSynchronousMode (enabled : bool) (s : State)
  : Outcome status_t :=
  if mStopped s then Done NO_INIT s []
  else if negb enabled then Done INVALID_OPERATION s []
  else if negb (eqb (mSynchronousMode s) enabled) then
    Done OK (set_mSynchronousMode enabled s) [Signal mDequeueCondition]
  else Done OK s [].

(** [connect] returns the status and, on success, what it writes to
    [outWidth], [outHeight] and [outTransform]. *)

Definition connect (api : api_t) (s : State)
  : Outcome (status_t * option (Z * Z * Z)) :=
  if mStopped s then Done (NO_INIT, None) s []
  else if is_producer_api api then
    if negb (api_eqb (mConnectedApi s) NO_CONNECTED_API)
    then Done (NEG_EINVAL, None) s []
    else
      Done (NO_ERROR, Some (mDefaultWidth s, mDefaultHeight s, 0))
        (set_mConnectedApi api s) []
  else Done (NEG_EINVAL, None) s [].

Definition disconnect (api : api_t) (s : State) : Outcome status_t :=
  if mStopped s then Done NO_INIT s []
  else if is_producer_api api then
    if api_eqb (mConnectedApi s) api then
      Done NO_ERROR
        (set_mStopped true (set_mConnectedApi NO_CONNECTED_API s))
        [Signal mDequeueCondition; Signal mFrameAvailableCondition]
    else Done NEG_EINVAL s []
  else Done NEG_EINVAL s [].

Definition onFrameReceivedLocked (s : State) : Outcome status_t :=
  let listener :=
    if mSynchronousMode s || bool_decide (mQueue s = [])
    then mFrameAvailableListener s else false in
  Done OK s
    (Signal mFrameAvailableCondition ::
     (if listener then [ListenerCalled] else [])).

Definition setFrameAvailableListener (listener : bool) (s : State)
  : Outcome unit :=
  Done tt (set_mFrameAvailableListener listener s) [].

Definition MAX_FRAME_RATE : Z := 60.

Definition setFrameRate (fps : Z) (s : State) : Outcome status_t :=
  if (fps <? 0) || (fps >? MAX_FRAME_RATE) then Done BAD_VALUE s []
  else Done OK (set_mFrameRate fps s) [].

(** [start]: [params] is [Some startTimeUs] when the meta data carries
    [kKeyTime]. *)

Definition start (params : option Z) (s : State) : Outcome status_t :=
  let s1 := set_mStartTimeNs 0 s in
  match params with
  | Some startTimeUs =>
      Done OK (set_mStartTimeNs (wrap_signed 64 (startTimeUs * 1000)) s1) []
  | None => Done OK s1 []
  end.

Definition stop (s : State) : Outcome status_t :=
  Done OK
    (freeAllBuffersLocked (set_mQueue [] (set_mStopped true s)))
    [Signal mFrameAvailableCondition; Signal mDequeueCondition].

(** *** The consumer side *)

(** [mSlots[i]] for an [int] index taken from the data. *)

Definition slot_at (slots : list BufferSlot) (i : Z) : option BufferSlot :=
  if i <? 0 then None else slots !! Z.to_nat i.

(** The metadata record: the four bytes of the [OMX_U32] type tag, then
    the bytes of the handle, both copied with [memcpy] from the variable
    (little-endian, as on the platforms this code runs on).  A fresh
    [MediaBuffer] has no observer and a reference count of zero.  [None]
    stands for the read of [mCurrentBuf->handle] through a null
    [mCurrentBuf]. *)

Definition passMetadataBufferLocked (s : State) : option MediaBuffer :=
  match mCurrentBuf s with
  | None => None
  | Some gb =>
      Some {| mb_data :=
                le_split 4 kMetadataBufferTypeGrallocSource ++
                le_split sizeof_buffer_handle_t (handle gb);
              mb_observer := false;
              mb_refcount := 0;
              mb_kKeyTime := None |}
  end.

(** [read] returns the status and what it leaves in [*buffer].  The wait
    loop: a caller that finds the queue empty on a running session
    suspends, and nothing in its own thread can wake it up. *)

Definition read (s : State) : Outcome (status_t * option MediaBuffer) :=
  if negb (mStopped s) && bool_decide (mQueue s = []) then Blocked
  else if mStopped s then Done (ERROR_END_OF_STREAM, None) s []
  else
    match mQueue s with
    | [] => Blocked
    | front :: rest =>
        let s1 := set_mQueue rest (set_mCurrentSlot front s) in
        match slot_at (mSlots s1) (mCurrentSlot s1) with
        | None => Undefined
        | Some sl =>
            let s2 := set_mCurrentBuf (mGraphicBuffer sl) s1 in
            let s3 := set_mCurrentTimestamp (mTimestamp sl) s2 in
            let s4 :=
              set_mNumFramesEncoded
                (wrap_signed 32 (mNumFramesEncoded s3 + 1)) s3 in
            match passMetadataBufferLocked s4 with
            | None => Undefined
            | Some b =>
                Done
                  (OK,
                   Some {| mb_data := mb_data b;
                           mb_observer := true;
                           mb_refcount := mb_refcount b + 1;
                           mb_kKeyTime :=
                             Some (Z.quot (mCurrentTimestamp s4) 1000) |})
                  s4 []
            end
        end
    end.

(** The handle [checkBufferMatchesSlot] copies out of the record:
    [sizeof(buffer_handle_t)] bytes from offset 4.  [None] when the record
    is too short to hold them. *)

Definition record_handle (buffer : MediaBuffer) : option Z :=
  let bytes := take sizeof_buffer_handle_t (drop 4 (mb_data buffer)) in
  if Nat.eqb (length bytes) sizeof_buffer_handle_t
  then Some (le_combine bytes) else None.

Definition checkBufferMatchesSlot (slot : nat) (buffer : MediaBuffer)
    (s : State) : option bool :=
  match mSlots s !! slot with
  | None => None
  | Some sl =>
      match mGraphicBuffer sl, record_handle buffer with
      | Some gb, Some bufferHandle => Some (handle gb =? bufferHandle)
      | _, _ => None
      end
  end.

(** What a successful return does besides freeing the slot: the record
    is released and both conditions are signalled. *)

Definition returned_events : list Event :=
  [RecordReleased; Signal mDequeueCondition; Signal mFrameCompleteCondition].

(** The scan of [signalBufferReturned] over the indices still to visit;
    the value is [foundBuffer].  A slot without a buffer is skipped; the
    first slot whose handle matches is set to FREE and ends the scan. *)

Fixpoint signalBufferReturned_scan (ids : list nat) (buffer : MediaBuffer)
    (s : State) : Outcome bool :=
  match ids with
  | [] => Done false s []
  | id :: rest =>
      match mSlots s !! id with
      | None => Undefined
      | Some sl =>
          match mGraphicBuffer sl with
          | None => signalBufferReturned_scan rest buffer s
          | Some _ =>
              match checkBufferMatchesSlot id buffer s with
              | None => Undefined
              | Some true =>
                  Done true
                    (set_mSlots
                       (alter (set_slot_state FREE) id (mSlots s)) s)
                    returned_events
              | Some false => signalBufferReturned_scan rest buffer s
              end
          end
      end
  end.

(** When the scan has found nothing, [CHECK_EQ(0, "...")] compares the
    null constant with the address of a string literal and fails. *)

Definition signalBufferReturned (buffer : MediaBuffer) (s : State)
  : Outcome unit :=
  if mStopped s then Done tt s []
  else
    match
      signalBufferReturned_scan (loop_indices NUM_BUFFER_SLOTS) buffer s
    with
    | Done true s' evs => Done tt s' evs
    | Done false _ _ => Fatal
    | Blocked => Blocked
    | Fatal => Fatal
    | Undefined => Undefined
    end.

Definition onFrameAvailable (s : State) : Outcome unit :=
  Done tt s
    (Broadcast mFrameAvailableCondition ::
     (if mFrameAvailableListener s then [ListenerCalled] else [])).

Definition onBuffersReleased (s : State) : Outcome unit :=
  Done tt
    (set_mBufferSlot
       (foldl (fun slots i => <[i := None]> slots) (mBufferSlot s)
          (loop_indices BufferQueue_NUM_BUFFER_SLOTS))
       s)
    [Signal mFrameAvailableCondition].

(** *** Sequences of calls

    The calls of the class that change the state or signal a condition.
    The [const] accessors ([getQueuedCount], [getTimestamp],
    [getCurrentBuffer], [query], [getFormat], [getFrameRate], [dump])
    only read it.  The producer's dequeue and queue calls are the buffer
    queue's and are not in this file. *)

Inductive Op : Type :=
| OpSetBufferCountServer (bufferCount : Z)
| OpSetBufferCount (bufferCount : Z)
| OpRequestBuffer (slot : Z)
| OpSetSynchronousMode (enabled : bool)
| OpConnect (api : api_t)
| OpDisconnect (api : api_t)
| OpSetFrameAvailableListener (listener : bool)
| OpSetFrameRate (fps : Z)
| OpStart (params : option Z)
| OpStop
| OpRead
| OpSignalBufferReturned (buffer : MediaBuffer)
| OpOnFrameAvailable
| OpOnBuffersReleased.

(** The state a call leaves when it returns. *)

Definition state_after {A : Type} (o : Outcome A) : option State :=
  match o with
  | Done _ s _ => Some s
  | _ => None
  end.

Definition exec (op : Op) (s : State) : option State :=
  match op with
  | OpSetBufferCountServer k => state_after (setBufferCountServer k s)
  | OpSetBufferCount k => state_after (setBufferCount k s)
  | OpRequestBuffer i => state_after (requestBuffer i s)
  | OpSetSynchronousMode b => state_after (setSynchronousMode b s)
  | OpConnect a => state_after (connect a s)
  | OpDisconnect a => state_after (disconnect a s)
  | OpSetFrameAvailableListener l =>
      state_after (setFrameAvailableListener l s)
  | OpSetFrameRate f => state_after (setFrameRate f s)
  | OpStart p => state_after (start p s)
  | OpStop => state_after (stop s)
  | OpRead => state_after (read s)
  | OpSignalBufferReturned b => state_after (signalBufferReturned b s)
  | OpOnFrameAvailable => state_after (onFrameAvailable s)
  | OpOnBuffersReleased => state_after (onBuffersReleased s)
  end.

Fixpoint run (ops : list Op) (s : State) : option State :=
  match ops with
  | [] => Some s
  | op :: rest =>
      match exec op s with
      | Some s' => run rest s'
      | None => None
      end
  end.

(** *** Well-formed states

    [mSlots] is an array of [NUM_BUFFER_SLOTS] slots, and the buffer
    count in use never exceeds it. *)

Definition wf_state (s : State) : Prop :=
  Z.of_nat (length (mSlots s)) = NUM_BUFFER_SLOTS /\
  mBufferCount s <= NUM_BUFFER_SLOTS.

(** A handle fits the bytes of a [buffer_handle_t]. *)

Definition handle_fits (h : Z) : Prop :=
  0 <= h < 2 ^ (Z.of_nat sizeof_buffer_handle_t * 8).

Definition all_slots_free (slots : list BufferSlot) : Prop :=
  forall i sl, slots !! i = Some sl ->
    mBufferState sl = FREE /\ mGraphicBuffer sl = None.

(** Slot [j] holds a buffer whose handle is the one in the record. *)

Definition slot_matches (s : State) (buffer : MediaBuffer) (j : nat) : Prop :=
  exists sl gb,
    mSlots s !! j = Some sl /\ mGraphicBuffer sl = Some gb /\
    record_handle buffer = Some (handle gb).

(** The only changes a slot has undergone are a move to FREE and the
    loss of its buffer reference. *)

Definition slot_released (sl sl' : BufferSlot) : Prop :=
  (mBufferState sl' = mBufferState sl \/ mBufferState sl' = FREE) /\
  (mGraphicBuffer sl' = mGraphicBuffer sl \/ mGraphicBuffer sl' = None).

Definition slots_only_released (slots slots' : list BufferSlot) : Prop :=
  forall i sl', slots' !! i = Some sl' ->
    exists sl, slots !! i = Some sl /\ slot_released sl sl'.

(** What every call keeps: slots only lose their state and buffer, a
    stopped session stays stopped, an empty queue stays empty. *)

Definition kept (s s' : State) : Prop :=
  slots_only_released (mSlots s) (mSlots s') /\
  (mStopped s = true -> mStopped s' = true) /\
  (mQueue s = [] -> mQueue s' = []).

(** *** The accessors

    Each takes the lock, reads one member and returns it. *)

Definition getQueuedCount (s : State) : nat := length (mQueue s).

Definition getTimestamp (s : State) : Z := mCurrentTimestamp s.

Definition getCurrentBuffer (s : State) : option GraphicBuffer :=
  mCurrentBuf s.

Definition getFrameRate (s : State) : Z := mFrameRate s.

Definition isMetaDataStoredInVideoBuffers : bool := true.

(** [query]: the status and, on success, the value stored in
    [outValue[0]].  [mPixelFormat] is a member no function of this file
    writes, and [MIN_UNDEQUEUED_BUFFERS] a constant of the header; both
    are taken as given.  The local [value] is an [int]: whatever is
    assigned to it is narrowed to 32 signed bits, which changes the
    [uint32_t] members [mDefaultWidth] and [mDefaultHeight] from 2^31
    on. *)

Inductive query_what : Set :=
| NATIVE_WINDOW_WIDTH
| NATIVE_WINDOW_HEIGHT
| NATIVE_WINDOW_FORMAT
| NATIVE_WINDOW_MIN_UNDEQUEUED_BUFFERS
| OTHER_QUERY (n : Z).

Section Query.

Variable mPixelFormat : Z.
Variable MIN_UNDEQUEUED_BUFFERS : Z.

Definition query (what : query_what) (s : State) : status_t * option Z :=
  match what with
  | NATIVE_WINDOW_WIDTH =>
      let value := wrap_signed 32 (mDefaultWidth s) in
      let value :=
        if (mDefaultWidth s =? 0) && (mDefaultHeight s =? 0) then
          match mCurrentBuf s with
          | Some buf => wrap_signed 32 (width buf)
          | None => value
          end
        else value in
      (NO_ERROR, Some value)
  | NATIVE_WINDOW_HEIGHT =>
      let value := wrap_signed 32 (mDefaultHeight s) in
      let value :=
        if (mDefaultWidth s =? 0) && (mDefaultHeight s =? 0) then
          match mCurrentBuf s with
          | Some buf => wrap_signed 32 (height buf)
          | None => value
          end
        else value in
      (NO_ERROR, Some value)
  | NATIVE_WINDOW_FORMAT => (NO_ERROR, Some (wrap_signed 32 mPixelFormat))
  | NATIVE_WINDOW_MIN_UNDEQUEUED_BUFFERS =>
      (NO_ERROR,
       Some (wrap_signed 32
               (if mSynchronousMode s then MIN_UNDEQUEUED_BUFFERS - 1
                else MIN_UNDEQUEUED_BUFFERS)))
  | OTHER_QUERY _ => (BAD_VALUE, None)
  end.

End Query.

(** *** The reader's loop

    [n] calls of [read] in a row, as the encoder makes them: the records
    in the order they were returned.  The loop ends early at the first
    call that does not return a record. *)

Fixpoint read_frames (n : nat) (s : State)
  : list MediaBuffer * Outcome status_t :=
  match n with
  | O => ([], Done OK s [])
  | S n' =>
      match read s with
      | Done (OK, Some b) s1 _ =>
          let (bs, o) := read_frames n' s1 in (b :: bs, o)
      | Done (err, _) s1 evs => ([], Done err s1 evs)
      | Blocked => ([], Blocked)
      | Fatal => ([], Fatal)
      | Undefined => ([], Undefined)
      end
  end.

(** The slot a queue entry names holds a buffer. *)

Definition holds_buffer (slots : list BufferSlot) (i : Z) : Prop :=
  exists sl gb, slot_at slots i = Some sl /\ mGraphicBuffer sl = Some gb.

(** Record [b] is the one [read] makes for slot [i]: the tag, the handle
    of the slot's buffer, and the slot's time stamp in microseconds. *)

Definition record_of_slot (slots : list BufferSlot) (i : Z)
    (b : MediaBuffer) : Prop :=
  exists sl gb,
    slot_at slots i = Some sl /\ mGraphicBuffer sl = Some gb /\
    mb_data b =
      le_split 4 kMetadataBufferTypeGrallocSource ++
      le_split sizeof_buffer_handle_t (handle gb) /\
    mb_kKeyTime b = Some (Z.quot (mTimestamp sl) 1000).

(** The identities [mConnectedApi] can hold. *)

Definition connected_api_ok (a : api_t) : Prop :=
  a = NO_CONNECTED_API \/ is_producer_api a = true.

End SurfaceMediaSource.

(** [getFormat]: the values stored in the fresh [MetaData], one field
    for each key.  The colour format and the MIME type are constants of
    other headers, taken as given.  [setInt32] takes an [int32_t]: the
    [uint32_t] members [mDefaultWidth] and [mDefaultHeight] are narrowed
    to 32 signed bits on the way in; [mFrameRate] is an [int32_t]
    already. *)

Record Format (Color Mime : Type) : Type := mkFormat {
  kKeyWidth : Z;
  kKeyHeight : Z;
  kKeyColorFormat : Color;
  kKeyStride : Z;
  kKeySliceHeight : Z;
  kKeyFrameRate : Z;
  kKeyMIMEType : Mime
}.

Arguments mkFormat {Color Mime}.
Arguments kKeyWidth {Color Mime}.
Arguments kKeyHeight {Color Mime}.
Arguments kKeyColorFormat {Color Mime}.
Arguments kKeyStride {Color Mime}.
Arguments kKeySliceHeight {Color Mime}.
Arguments kKeyFrameRate {Color Mime}.
Arguments kKeyMIMEType {Color Mime}.

Definition getFormat {Color Mime : Type}
    (OMX_COLOR_FormatAndroidOpaque : Color) (MEDIA_MIMETYPE_VIDEO_RAW : Mime)
    (s : State) : Format Color Mime :=
  {| kKeyWidth := wrap_signed 32 (mDefaultWidth s);
     kKeyHeight := wrap_signed 32 (mDefaultHeight s);
     kKeyColorFormat := OMX_COLOR_FormatAndroidOpaque;
     kKeyStride := wrap_signed 32 (mDefaultWidth s);
     kKeySliceHeight := wrap_signed 32 (mDefaultHeight s);
     kKeyFrameRate := mFrameRate s;
     kKeyMIMEType := MEDIA_MIMETYPE_VIDEO_RAW |}.

(** ** Example sessions

    The constants as the specification gives them (capacity 32, at least
    2 slots in synchronous mode, at least 3 for a client), on a 32-bit
    platform, and a few states of a session over them. *)

Definition example_constants : HeaderConstants :=
  {| NUM_BUFFER_SLOTS := 32;
     MIN_SYNC_BUFFER_SLOTS := 2;
     MIN_ASYNC_BUFFER_SLOTS := 3;
     INVALID_BUFFER_SLOT := -1;
     kMetadataBufferTypeGrallocSource := 1;
     sizeof_buffer_handle_t := 4;
     BufferQueue_NUM_BUFFER_SLOTS := 32 |}.

Definition empty_slot : BufferSlot :=
  {| mGraphicBuffer := None; mBufferState := FREE;
     mRequestBufferCalled := false; mTimestamp := 0 |}.

Definition queued_slot (h ts : Z) : BufferSlot :=
  {| mGraphicBuffer := Some {| handle := h; width := 640; height := 480 |};
     mBufferState := QUEUED;
     mRequestBufferCalled := true; mTimestamp := ts |}.

(** Nobody connected, nothing queued. *)

Definition example_idle : State :=
  {| mSlots := replicate 32 empty_slot; mQueue := [];
     mBufferCount := 3; mServerBufferCount := 3; mClientBufferCount := 0;
     mSynchronousMode := true; mStopped := false;
     mConnectedApi := NO_CONNECTED_API; mCurrentSlot := -1;
     mCurrentBuf := None; mCurrentTimestamp := 0; mNumFramesEncoded := 0;
     mDefaultWidth := 640; mDefaultHeight := 480; mFrameRate := 30;
     mStartTimeNs := 0; mFrameAvailableListener := false;
     mBufferSlot := replicate 32 None |}.

(** A CPU producer is connected and has queued slot 0 at time 100. *)

Definition example_queued : State :=
  set_mQueue [0]
    (set_mConnectedApi NATIVE_WINDOW_API_CPU
       (set_mSlots (queued_slot 3735928559 100 :: replicate 31 empty_slot)
          example_idle)).

(** Slots 1 and 2 hold buffers with the same handle; slot 0 is empty. *)

Definition example_twins : State :=
  set_mConnectedApi NATIVE_WINDOW_API_CPU
    (set_mSlots
       (empty_slot :: queued_slot 48879 100 :: queued_slot 48879 200 ::
        replicate 29 empty_slot)
       example_idle).

(** The session of [example_queued] after [disconnect]. *)

Definition example_disconnected : State :=
  set_mStopped true (set_mConnectedApi NO_CONNECTED_API example_queued).

(** A client has fixed the count at 4 while the server asks for 5. *)

Definition example_client_count : State :=
  set_mServerBufferCount 5
    (set_mClientBufferCount 4 (set_mBufferCount 4 example_idle)).

(** The client count has been dropped again: no client count is in
    effect, four slots are in use and the server's request for three is
    waiting. *)


(** Slot 1 is in the client's hands. *)

Definition dequeued_slot : BufferSlot :=
  {| mGraphicBuffer := Some {| handle := 51966; width := 640; height := 480 |};
     mBufferState := DEQUEUED;
     mRequestBufferCalled := true; mTimestamp := 0 |}.

Definition example_dequeued : State :=
  set_mSlots (empty_slot :: dequeued_slot :: replicate 30 empty_slot)
    example_idle.

(** Two frames wait: slot 1, queued first at 1000 ns, then slot 0 at
    2000999 ns. *)

Definition example_two_frames : State :=
  set_mQueue [1; 0]
    (set_mConnectedApi NATIVE_WINDOW_API_CPU
       (set_mSlots
          (queued_slot 4096 2000999 :: queued_slot 8192 1000 ::
           replicate 30 empty_slot)
          example_idle)).

(** The session of [example_queued] without a default size. *)

Definition example_no_default_size : State :=
  {| mSlots := mSlots example_queued; mQueue := mQueue example_queued;
     mBufferCount := 3; mServerBufferCount := 3; mClientBufferCount := 0;
     mSynchronousMode := true; mStopped := false;
     mConnectedApi := NATIVE_WINDOW_API_CPU; mCurrentSlot := -1;
     mCurrentBuf := None; mCurrentTimestamp := 0; mNumFramesEncoded := 0;
     mDefaultWidth := 0; mDefaultHeight := 0; mFrameRate := 30;
     mStartTimeNs := 0; mFrameAvailableListener := false;
     mBufferSlot := replicate 32 None |}.

(** A session whose default width is the largest [uint32_t]. *)

Definition example_wide : State :=
  {| mSlots := replicate 32 empty_slot; mQueue := [];
     mBufferCount := 3; mServerBufferCount := 3; mClientBufferCount := 0;
     mSynchronousMode := true; mStopped := false;
     mConnectedApi := NO_CONNECTED_API; mCurrentSlot := -1;
     mCurrentBuf := None; mCurrentTimestamp := 0; mNumFramesEncoded := 0;
     mDefaultWidth := 4294967295; mDefaultHeight := 480; mFrameRate := 30;
     mStartTimeNs := 0; mFrameAvailableListener := false;
     mBufferSlot := replicate 32 None |}.

(** A record whose handle is [h], as the encoder hands it back. *)

Definition example_record (h : Z) : MediaBuffer :=
  {| mb_data := le_split 4 1 ++ le_split 4 h;
     mb_observer := true; mb_refcount := 0; mb_kKeyTime := Some 0 |}.

(** ** Properties *)

Section Properties.

Context `{HC : HeaderConstants}.

#[local] Arguments le_split : simpl never.

(** *** Loops over the slot table *)

Lemma foldl_alter_lookup {A : Type} (f : A -> A) (n a : nat) (l : list A)
    (i : nat) :
  foldl (fun acc j => alter f j acc) l (seq a n) !! i =
  if bool_decide (a <= i < a + n)%nat then f <$> l !! i else l !! i.
Proof.
  revert a l. induction n as [|n IH]; intros a l; simpl.
  - rewrite bool_decide_eq_false_2 by lia. reflexivity.
  - rewrite IH. destruct (decide (i = a)) as [-> | Hne].
    + rewrite (bool_decide_eq_false_2 (S a <= a < S a + n)%nat) by lia.
      rewrite (bool_decide_eq_true_2 (a <= a < a + S n)%nat) by lia.
      rewrite list_lookup_alter. rewrite decide_True by reflexivity.
      reflexivity.
    + rewrite list_lookup_alter_ne by congruence.
      destruct (decide (S a <= i < S a + n)%nat) as [Hin|Hout].
      * rewrite !bool_decide_eq_true_2 by lia. reflexivity.
      * rewrite !bool_decide_eq_false_2 by lia. reflexivity.
Qed.

Lemma foldl_alter_length {A : Type} (f : A -> A) (ids : list nat)
    (l : list A) :
  length (foldl (fun acc j => alter f j acc) l ids) = length l.
Proof.
  revert l. induction ids as [|j ids IH]; intros l; simpl; [reflexivity|].
  rewrite IH. apply length_alter.
Qed.

Lemma freeAll_slots_lookup (s : State) (i : nat) :
  mSlots (freeAllBuffersLocked s) !! i =
  if bool_decide (i < Z.to_nat NUM_BUFFER_SLOTS)%nat
  then free_slot <$> mSlots s !! i else mSlots s !! i.
Proof.
  unfold freeAllBuffersLocked, loop_indices. simpl.
  rewrite foldl_alter_lookup.
  destruct (decide (i < Z.to_nat NUM_BUFFER_SLOTS)%nat).
  - rewrite !bool_decide_eq_true_2 by lia. reflexivity.
  - rewrite !bool_decide_eq_false_2 by lia. reflexivity.
Qed.

Lemma freeAll_all_free (s : State) :
  Z.of_nat (length (mSlots s)) = NUM_BUFFER_SLOTS ->
  all_slots_free (mSlots (freeAllBuffersLocked s)).
Proof.
  intros Hlen i sl Hi. rewrite freeAll_slots_lookup in Hi.
  destruct (decide (i < Z.to_nat NUM_BUFFER_SLOTS)%nat) as [Hlt|Hge].
  - rewrite bool_decide_eq_true_2 in Hi by assumption.
    destruct (mSlots s !! i) as [sl0|]; simpl in Hi; [|discriminate].
    injection Hi as <-. split; reflexivity.
  - rewrite bool_decide_eq_false_2 in Hi by assumption.
    apply lookup_lt_Some in Hi. lia.
Qed.


(** *** Reading from a stopped session *)

(** C4. On every state whose stopped flag is set, [read] returns the
    end-of-stream result, leaves [*buffer] null and leaves the state,
    the Ready Queue included, as it was, whatever the queue holds. *)
Theorem read_stopped_end_of_stream (s : State) :
  mStopped s = true ->
  read s = Done (ERROR_END_OF_STREAM, None) s [].
Proof.
  intros Hstop. unfold read. rewrite Hstop. reflexivity.
Qed.

(** *** Connecting *)

(** C5, as the code has it.  For each of the four producer identities,
    [connect] on a stopped session returns the not-initialised result
    [NO_INIT], and on a running session with a producer already connected
    it returns the invalid-argument result [-EINVAL]; in both cases the
    state is unchanged, nothing is written to the outputs and nothing is
    signalled. *)
Theorem connect_failures (api : api_t) (s : State) :
  is_producer_api api = true ->
  (mStopped s = true -> connect api s = Done (NO_INIT, None) s []) /\
  (mStopped s = false -> mConnectedApi s <> NO_CONNECTED_API ->
   connect api s = Done (NEG_EINVAL, None) s []).
Proof.
  intros Hapi. unfold connect. split.
  - intros ->. reflexivity.
  - intros -> Hconn. rewrite Hapi.
    destruct (mConnectedApi s); try contradiction; reflexivity.
Qed.

(** *** Synchronous mode *)

(** C7, as the code has it.  [setSynchronousMode(false)] never succeeds
    and never changes the state: on a running session it returns the
    illegal-state result [INVALID_OPERATION], on a stopped session the
    not-initialised result [NO_INIT]. *)
Theorem setSynchronousMode_false_fails (s : State) :
  setSynchronousMode false s =
  Done (if mStopped s then NO_INIT else INVALID_OPERATION) s [].
Proof.
  unfold setSynchronousMode. destruct (mStopped s); reflexivity.
Qed.

(** *** Buffer counts *)


Lemma client_owns_buffers_none (slots : list BufferSlot) (ids : list nat) :
  (forall i, In i ids -> (i < length slots)%nat) ->
  (forall i sl, slots !! i = Some sl -> mBufferState sl <> DEQUEUED) ->
  client_owns_buffers slots ids = Some false.
Proof.
  intros Hin Hno. induction ids as [|i ids IH]; simpl; [reflexivity|].
  destruct (lookup_lt_is_Some_2 slots i) as [sl Hsl].
  { apply Hin. left. reflexivity. }
  rewrite Hsl. specialize (Hno i sl Hsl).
  destruct (mBufferState sl); simpl; try contradiction;
    apply IH; intros j Hj; apply Hin; right; exact Hj.
Qed.

Lemma loop_indices_bound (n : Z) (i : nat) :
  In i (loop_indices n) -> (Z.of_nat i < n)%Z.
Proof.
  unfold loop_indices. rewrite in_seq. lia.
Qed.

(** C6, as the code has it.  On a session where no slot is DEQUEUED,
    with a client minimum above 1 and within the capacity:
    [setBufferCount] of the capacity succeeds (the count and the client
    count become the capacity, the current slot is reset, the queue is
    cleared, every slot is freed and the dequeue condition signalled);
    [setBufferCount] of the capacity plus one fails with [BAD_VALUE], the
    result for a count beyond the capacity; and [setBufferCount(1)] fails
    with that same [BAD_VALUE], not with [INVALID_OPERATION]. *)
Theorem setBufferCount_boundaries (s : State) :
  wf_state s ->
  (forall i sl, mSlots s !! i = Some sl -> mBufferState sl <> DEQUEUED) ->
  1 < MIN_ASYNC_BUFFER_SLOTS <= NUM_BUFFER_SLOTS ->
  setBufferCount NUM_BUFFER_SLOTS s =
    Done OK
      (freeAllBuffersLocked
         (set_mQueue []
            (set_mCurrentSlot INVALID_BUFFER_SLOT
               (set_mClientBufferCount NUM_BUFFER_SLOTS
                  (set_mBufferCount NUM_BUFFER_SLOTS s)))))
      [Signal mDequeueCondition] /\
  setBufferCount (NUM_BUFFER_SLOTS + 1) s = Done BAD_VALUE s [] /\
  setBufferCount 1 s = Done BAD_VALUE s [].
Proof.
  intros [Hlen Hcnt] Hno Hmin.
  assert (Hscan : client_owns_buffers (mSlots s)
                    (loop_indices (mBufferCount s)) = Some false).
  { apply client_owns_buffers_none; [|exact Hno].
    intros i Hi. apply loop_indices_bound in Hi. lia. }
  unfold setBufferCount. rewrite Hscan. repeat split.
  - destruct (Z.gtb_spec NUM_BUFFER_SLOTS NUM_BUFFER_SLOTS); [lia|].
    destruct (Z.eqb_spec NUM_BUFFER_SLOTS 0); [lia|].
    destruct (Z.ltb_spec NUM_BUFFER_SLOTS MIN_ASYNC_BUFFER_SLOTS); [lia|].
    reflexivity.
  - destruct (Z.gtb_spec (NUM_BUFFER_SLOTS + 1) NUM_BUFFER_SLOTS); [|lia].
    reflexivity.
  - destruct (Z.gtb_spec 1 NUM_BUFFER_SLOTS); [lia|].
    simpl. destruct (Z.ltb_spec 1 MIN_ASYNC_BUFFER_SLOTS); [|lia].
    reflexivity.
Qed.

(** *** Stopping *)

Lemma api_eqb_refl (a : api_t) : api_eqb a a = true.
Proof. destruct a; simpl; try reflexivity. apply Z.eqb_refl. Qed.




(** *** The return path: what the scan does *)

Lemma scan_inv (ids : list nat) (buffer : MediaBuffer) (s : State)
    (r : bool) (s' : State) (evs : list Event) :
  signalBufferReturned_scan ids buffer s = Done r s' evs ->
  (r = false /\ s' = s /\ evs = [] /\
   forall j, In j ids -> ~ slot_matches s buffer j) \/
  (r = true /\
   exists pre id post,
     ids = pre ++ id :: post /\
     (forall j, In j pre -> ~ slot_matches s buffer j) /\
     slot_matches s buffer id /\
     s' = set_mSlots (alter (set_slot_state FREE) id (mSlots s)) s /\
     evs = returned_events).
Proof.
  induction ids as [|id ids IH]; simpl; intros Hscan.
  - injection Hscan as <- <- <-. left.
    split; [reflexivity|]. split; [reflexivity|]. split; [reflexivity|].
    intros j [].
  - assert (Hcont : ~ slot_matches s buffer id ->
              signalBufferReturned_scan ids buffer s = Done r s' evs ->
              (r = false /\ s' = s /\ evs = [] /\
               forall j, In j (id :: ids) -> ~ slot_matches s buffer j) \/
              (r = true /\
               exists pre id0 post,
                 id :: ids = pre ++ id0 :: post /\
                 (forall j, In j pre -> ~ slot_matches s buffer j) /\
                 slot_matches s buffer id0 /\
                 s' = set_mSlots
                        (alter (set_slot_state FREE) id0 (mSlots s)) s /\
                 evs = returned_events)).
    { intros Hno Hrest.
      destruct (IH Hrest) as [(-> & -> & -> & Hnone)|(-> & Hsome)].
      - left.
        split; [reflexivity|]. split; [reflexivity|]. split; [reflexivity|].
        intros j [<- | Hj]; [exact Hno|apply Hnone; exact Hj].
      - right. split; [reflexivity|].
        destruct Hsome as (pre & id' & post & -> & Hpre & Hm & -> & ->).
        exists (id :: pre), id', post.
        split; [reflexivity|]. split.
        { intros j [<- | Hj]; [exact Hno|apply Hpre; exact Hj]. }
        split; [exact Hm|]. split; reflexivity. }
    destruct (mSlots s !! id) as [sl|] eqn:Hsl; [|discriminate].
    destruct (mGraphicBuffer sl) as [gb|] eqn:Hgb.
    + unfold checkBufferMatchesSlot in Hscan. rewrite Hsl, Hgb in Hscan.
      destruct (record_handle buffer) as [h|] eqn:Hh; [|discriminate].
      destruct (Z.eqb_spec (handle gb) h) as [Heq|Hne].
      * injection Hscan as <- <- <-. right. split; [reflexivity|].
        exists [], id, ids.
        split; [reflexivity|]. split; [intros j []|].
        split; [|split; reflexivity].
        exists sl, gb. rewrite Heq. auto.
      * apply Hcont; [|exact Hscan].
        intros (sl0 & gb0 & Hsl0 & Hgb0 & Hh0). congruence.
    + apply Hcont; [|exact Hscan].
      intros (sl0 & gb0 & Hsl0 & Hgb0 & Hh0). congruence.
Qed.

Lemma scan_none (ids : list nat) (buffer : MediaBuffer) (s : State) (h : Z) :
  record_handle buffer = Some h ->
  (forall j, In j ids -> (j < length (mSlots s))%nat) ->
  (forall j, In j ids -> ~ slot_matches s buffer j) ->
  signalBufferReturned_scan ids buffer s = Done false s [].
Proof.
  intros Hh Hlen Hno. induction ids as [|id ids IH]; simpl; [reflexivity|].
  destruct (lookup_lt_is_Some_2 (mSlots s) id) as [sl Hsl].
  { apply Hlen. left. reflexivity. }
  assert (IH' : signalBufferReturned_scan ids buffer s = Done false s []).
  { apply IH; intros j Hj; [apply Hlen|apply Hno]; right; exact Hj. }
  rewrite Hsl. destruct (mGraphicBuffer sl) as [gb|] eqn:Hgb; [|exact IH'].
  unfold checkBufferMatchesSlot. rewrite Hsl, Hgb, Hh.
  destruct (Z.eqb_spec (handle gb) h) as [Heq|Hne]; [|exact IH'].
  exfalso. apply (Hno id); [left; reflexivity|].
  exists sl, gb. rewrite Heq. auto.
Qed.

Lemma scan_first (pre post : list nat) (id : nat) (buffer : MediaBuffer)
    (s : State) :
  (forall j, In j pre -> (j < length (mSlots s))%nat) ->
  (forall j, In j pre -> ~ slot_matches s buffer j) ->
  slot_matches s buffer id ->
  signalBufferReturned_scan (pre ++ id :: post) buffer s =
  Done true (set_mSlots (alter (set_slot_state FREE) id (mSlots s)) s)
    returned_events.
Proof.
  intros Hlen Hno (sl & gb & Hsl & Hgb & Hh).
  induction pre as [|j pre IH]; simpl.
  - rewrite Hsl, Hgb. unfold checkBufferMatchesSlot.
    rewrite Hsl, Hgb, Hh, Z.eqb_refl. reflexivity.
  - destruct (lookup_lt_is_Some_2 (mSlots s) j) as [slj Hslj].
    { apply Hlen. left. reflexivity. }
    assert (IH' : signalBufferReturned_scan (pre ++ id :: post) buffer s =
                  Done true
                    (set_mSlots (alter (set_slot_state FREE) id (mSlots s)) s)
                    returned_events).
    { apply IH; intros k Hk; [apply Hlen|apply Hno]; right; exact Hk. }
    rewrite Hslj.
    destruct (mGraphicBuffer slj) as [gbj|] eqn:Hgbj; [|exact IH'].
    unfold checkBufferMatchesSlot. rewrite Hslj, Hgbj, Hh.
    destruct (Z.eqb_spec (handle gbj) (handle gb)) as [Heq|Hne]; [|exact IH'].
    exfalso. apply (Hno j); [left; reflexivity|].
    exists slj, gbj. rewrite Heq. auto.
Qed.

Lemma loop_indices_split (n : Z) (id : nat) :
  (Z.of_nat id < n)%Z ->
  loop_indices n = seq 0 id ++ id :: seq (S id) (Z.to_nat n - S id).
Proof.
  intros Hid. unfold loop_indices.
  replace (Z.to_nat n) with (id + S (Z.to_nat n - S id))%nat at 1 by lia.
  rewrite seq_app. simpl. reflexivity.
Qed.

Lemma seq_split_prefix (n : nat) (pre post : list nat) (id j : nat) :
  seq 0 n = pre ++ id :: post -> (j < id)%nat -> In j pre.
Proof.
  intros Hseq Hj.
  assert (Hid : id = length pre).
  { assert (Hmid : seq 0 n !! length pre = Some id)
      by (rewrite Hseq; apply list_lookup_middle; reflexivity).
    apply lookup_seq in Hmid. lia. }
  assert (Hn : (j < n)%nat).
  { apply (f_equal length) in Hseq.
    rewrite length_seq, length_app in Hseq. simpl in Hseq. lia. }
  apply list_elem_of_In, (list_elem_of_lookup_2 _ j).
  rewrite <- (lookup_app_l pre (id :: post)) by lia.
  rewrite <- Hseq. apply lookup_seq_lt. exact Hn.
Qed.

Lemma signal_first_match (buffer : MediaBuffer) (s : State) (id : nat) :
  mStopped s = false ->
  wf_state s ->
  slot_matches s buffer id ->
  (forall j, (j < id)%nat -> ~ slot_matches s buffer j) ->
  signalBufferReturned buffer s =
  Done tt (set_mSlots (alter (set_slot_state FREE) id (mSlots s)) s)
    returned_events.
Proof.
  intros Hrun [Hlen _] Hm Hfirst.
  assert (Hid : (id < length (mSlots s))%nat).
  { destruct Hm as (sl & gb & Hsl & _). eapply lookup_lt_Some. exact Hsl. }
  unfold signalBufferReturned. rewrite Hrun.
  rewrite (loop_indices_split NUM_BUFFER_SLOTS id) by lia.
  rewrite scan_first; [reflexivity| | |exact Hm].
  - intros j Hj. apply in_seq in Hj. lia.
  - intros j Hj. apply in_seq in Hj. apply Hfirst. lia.
Qed.

Lemma signal_returns_inv (buffer : MediaBuffer) (s s' : State)
    (evs : list Event) :
  mStopped s = false ->
  signalBufferReturned buffer s = Done tt s' evs ->
  exists id,
    slot_matches s buffer id /\
    (forall j, (j < id)%nat -> ~ slot_matches s buffer j) /\
    s' = set_mSlots (alter (set_slot_state FREE) id (mSlots s)) s /\
    evs = returned_events.
Proof.
  intros Hrun Hret. unfold signalBufferReturned in Hret.
  rewrite Hrun in Hret.
  destruct (signalBufferReturned_scan (loop_indices NUM_BUFFER_SLOTS)
              buffer s) as [r s0 evs0| | |] eqn:Hscan; try discriminate.
  destruct r; [|discriminate]. injection Hret as <- <-.
  apply scan_inv in Hscan.
  destruct Hscan as [(Hr & _)|(_ & pre & id & post & Hsplit & Hpre & Hm & -> & ->)];
    [discriminate|].
  exists id. split; [exact Hm|]. split; [|split; reflexivity].
  intros j Hj. apply Hpre.
  eapply seq_split_prefix; [exact Hsplit|exact Hj].
Qed.

(** C3.  On a stopped session [signalBufferReturned] returns at once
    and changes nothing.  On a running session, a record whose handle
    bytes equal the handle of no slot that holds a buffer makes the call
    end in the failed CHECK, the abort: it does not return. *)
Theorem signalBufferReturned_bogus_buffer (buffer : MediaBuffer) (s : State) :
  (mStopped s = true -> signalBufferReturned buffer s = Done tt s []) /\
  (mStopped s = false ->
   wf_state s ->
   forall h : Z,
     record_handle buffer = Some h ->
     (forall j sl gb,
        mSlots s !! j = Some sl -> mGraphicBuffer sl = Some gb ->
        handle gb <> h) ->
     signalBufferReturned buffer s = Fatal).
Proof.
  split.
  - intros Hstop. unfold signalBufferReturned. rewrite Hstop. reflexivity.
  - intros Hrun [Hlen _] h Hh Hno. unfold signalBufferReturned.
    rewrite Hrun. rewrite (scan_none _ _ _ h); [reflexivity|exact Hh| |].
    + intros j Hj. apply loop_indices_bound in Hj. lia.
    + intros j _ (sl & gb & Hsl & Hgb & Hrec).
      apply (Hno j sl gb Hsl Hgb). congruence.
Qed.

(** C9.  On a running session, with [id] the lowest index of a slot that
    holds a buffer whose handle equals the handle bytes of the record,
    [signalBufferReturned] returns after moving slot [id], and no other
    slot, to FREE: slot [id] is in state FREE and keeps its buffer, time
    stamp and requested flag, and every other slot, one with an equal
    handle included, is as before.  And whenever a call on a running
    session returns, it has done so for exactly one such lowest index,
    whose slot is then FREE. *)
Theorem signalBufferReturned_frees_lowest_match (buffer : MediaBuffer)
    (s : State) :
  mStopped s = false ->
  wf_state s ->
  (forall id : nat,
     slot_matches s buffer id ->
     (forall j, (j < id)%nat -> ~ slot_matches s buffer j) ->
     exists s' sl sl',
       signalBufferReturned buffer s = Done tt s' returned_events /\
       mSlots s !! id = Some sl /\
       mSlots s' !! id = Some sl' /\
       mBufferState sl' = FREE /\
       mGraphicBuffer sl' = mGraphicBuffer sl /\
       mTimestamp sl' = mTimestamp sl /\
       mRequestBufferCalled sl' = mRequestBufferCalled sl /\
       (forall j, j <> id -> mSlots s' !! j = mSlots s !! j)) /\
  (forall s' evs,
     signalBufferReturned buffer s = Done tt s' evs ->
     exists id : nat,
       slot_matches s buffer id /\
       (forall j, (j < id)%nat -> ~ slot_matches s buffer j) /\
       s' = set_mSlots (alter (set_slot_state FREE) id (mSlots s)) s /\
       (exists sl', mSlots s' !! id = Some sl' /\ mBufferState sl' = FREE) /\
       (forall j, j <> id -> mSlots s' !! j = mSlots s !! j)).
Proof.
  intros Hrun Hwf. split.
  - intros id Hm Hfirst.
    pose proof Hm as (sl & gb & Hsl & _).
    exists (set_mSlots (alter (set_slot_state FREE) id (mSlots s)) s), sl,
      (set_slot_state FREE sl).
    split; [apply signal_first_match; assumption|].
    split; [exact Hsl|]. simpl. split.
    { rewrite list_lookup_alter, decide_True by reflexivity.
      rewrite Hsl. reflexivity. }
    split; [reflexivity|]. split; [reflexivity|].
    split; [reflexivity|]. split; [reflexivity|].
    intros j Hj. apply list_lookup_alter_ne. congruence.
  - intros s' evs Hret.
    destruct (signal_returns_inv _ _ _ _ Hrun Hret)
      as (id & Hm & Hfirst & Hs' & _).
    exists id. split; [exact Hm|]. split; [exact Hfirst|].
    split; [exact Hs'|]. subst s'. simpl.
    destruct Hm as (sl & gb & Hsl & _). split.
    + exists (set_slot_state FREE sl). split; [|reflexivity].
      rewrite list_lookup_alter, decide_True by reflexivity.
      rewrite Hsl. reflexivity.
    + intros j Hj. apply list_lookup_alter_ne. congruence.
Qed.

(** *** The round trip of one frame *)

Lemma record_handle_le_split (buffer : MediaBuffer) (tag h : Z) :
  mb_data buffer = le_split 4 tag ++ le_split sizeof_buffer_handle_t h ->
  handle_fits h ->
  record_handle buffer = Some h.
Proof.
  intros Hdata Hfits. unfold record_handle. rewrite Hdata.
  rewrite drop_app_length' by (rewrite length_le_split; reflexivity).
  rewrite take_ge by (rewrite length_le_split; reflexivity).
  rewrite length_le_split, Nat.eqb_refl, le_combine_split.
  rewrite Z.mod_small by exact Hfits. reflexivity.
Qed.

(** C2.  On a running session whose Ready Queue has slot 0 at its front,
    slot 0 holding a buffer, [read] returns [OK] with a record whose
    bytes are the four bytes of the type tag followed by the bytes of the
    handle of slot 0's buffer, and [signalBufferReturned] on that record
    then returns with slot 0 in state FREE, its buffer, time stamp and
    requested flag as before. *)
Theorem read_then_return_frees_slot0 (s : State) (sl : BufferSlot)
    (gb : GraphicBuffer) (rest : list Z) :
  wf_state s ->
  mStopped s = false ->
  mQueue s = 0 :: rest ->
  mSlots s !! 0%nat = Some sl ->
  mGraphicBuffer sl = Some gb ->
  handle_fits (handle gb) ->
  exists (record : MediaBuffer) (s1 s2 : State) (sl' : BufferSlot),
    read s = Done (OK, Some record) s1 [] /\
    mb_data record =
      le_split 4 kMetadataBufferTypeGrallocSource ++
      le_split sizeof_buffer_handle_t (handle gb) /\
    length (mb_data record) = (4 + sizeof_buffer_handle_t)%nat /\
    mQueue s1 = rest /\
    signalBufferReturned record s1 = Done tt s2 returned_events /\
    mSlots s2 !! 0%nat = Some sl' /\
    mBufferState sl' = FREE /\
    mGraphicBuffer sl' = Some gb /\
    mTimestamp sl' = mTimestamp sl /\
    mRequestBufferCalled sl' = mRequestBufferCalled sl.
Proof.
  intros Hwf Hrun Hq Hsl Hgb Hfits.
  unfold read. rewrite Hrun, Hq.
  rewrite bool_decide_eq_false_2 by discriminate. simpl.
  unfold slot_at. simpl. change (Z.to_nat 0) with 0%nat. rewrite Hsl.
  unfold passMetadataBufferLocked. simpl. rewrite Hgb.
  eexists _, _, _, (set_slot_state FREE sl). split; [reflexivity|]. simpl.
  split; [reflexivity|]. split.
  { rewrite ?length_app, ?length_le_split. reflexivity. }
  split; [reflexivity|]. split.
  - apply signal_first_match.
    + exact Hrun.
    + exact Hwf.
    + exists sl, gb. split; [exact Hsl|]. split; [exact Hgb|].
      eapply record_handle_le_split; [reflexivity|exact Hfits].
    + intros j Hj. lia.
  - simpl. split.
    { rewrite list_lookup_alter, decide_True by reflexivity.
      rewrite Hsl. reflexivity. }
    split; [reflexivity|]. split; [exact Hgb|].
    split; reflexivity.
Qed.

(** *** What a sequence of calls can do to the slots *)

Lemma slot_released_refl (sl : BufferSlot) : slot_released sl sl.
Proof. split; left; reflexivity. Qed.

Lemma slot_released_trans (a b c : BufferSlot) :
  slot_released a b -> slot_released b c -> slot_released a c.
Proof.
  intros [Hs1 Hb1] [Hs2 Hb2]. split.
  - destruct Hs2 as [-> | ->]; [exact Hs1|right; reflexivity].
  - destruct Hb2 as [-> | ->]; [exact Hb1|right; reflexivity].
Qed.

Lemma slots_only_released_refl (l : list BufferSlot) :
  slots_only_released l l.
Proof. intros i sl Hi. exists sl. split; [exact Hi|apply slot_released_refl]. Qed.

Lemma slots_only_released_trans (l1 l2 l3 : list BufferSlot) :
  slots_only_released l1 l2 -> slots_only_released l2 l3 ->
  slots_only_released l1 l3.
Proof.
  intros H12 H23 i sl3 Hi.
  destruct (H23 i sl3 Hi) as (sl2 & Hi2 & Hr2).
  destruct (H12 i sl2 Hi2) as (sl1 & Hi1 & Hr1).
  exists sl1. split; [exact Hi1|].
  eapply slot_released_trans; [exact Hr1|exact Hr2].
Qed.

Lemma slots_only_released_alter (f : BufferSlot -> BufferSlot) (i : nat)
    (l : list BufferSlot) :
  (forall sl, slot_released sl (f sl)) ->
  slots_only_released l (alter f i l).
Proof.
  intros Hf j sl' Hj. rewrite list_lookup_alter in Hj.
  destruct (decide (i = j)) as [-> | Hne].
  - destruct (l !! j) as [sl|]; simpl in Hj; [|discriminate].
    injection Hj as <-. exists sl. split; [reflexivity|apply Hf].
  - exists sl'. split; [exact Hj|apply slot_released_refl].
Qed.

Lemma slots_only_released_foldl (f : BufferSlot -> BufferSlot)
    (ids : list nat) (l : list BufferSlot) :
  (forall sl, slot_released sl (f sl)) ->
  slots_only_released l (foldl (fun acc j => alter f j acc) l ids).
Proof.
  intros Hf. revert l. induction ids as [|j ids IH]; intros l; simpl.
  - apply slots_only_released_refl.
  - eapply slots_only_released_trans; [|apply IH].
    apply slots_only_released_alter. exact Hf.
Qed.

Lemma free_slot_released (sl : BufferSlot) : slot_released sl (free_slot sl).
Proof. split; right; reflexivity. Qed.

Lemma set_free_released (sl : BufferSlot) :
  slot_released sl (set_slot_state FREE sl).
Proof. split; [right|left]; reflexivity. Qed.

Lemma set_requested_released (sl : BufferSlot) :
  slot_released sl (set_slot_requested sl).
Proof. split; left; reflexivity. Qed.

Lemma freeAll_released (s : State) :
  slots_only_released (mSlots s) (mSlots (freeAllBuffersLocked s)).
Proof.
  unfold freeAllBuffersLocked. simpl.
  apply slots_only_released_foldl, free_slot_released.
Qed.

Lemma kept_refl (s : State) : kept s s.
Proof.
  split; [apply slots_only_released_refl|]. split; intros H; exact H.
Qed.

Lemma kept_trans (a b c : State) : kept a b -> kept b c -> kept a c.
Proof.
  intros (Hs1 & Hp1 & Hq1) (Hs2 & Hp2 & Hq2). split.
  - eapply slots_only_released_trans; [exact Hs1|exact Hs2].
  - split; intros H; auto.
Qed.

Lemma kept_same (s s' : State) :
  mSlots s' = mSlots s -> mStopped s' = mStopped s -> mQueue s' = mQueue s ->
  kept s s'.
Proof.
  intros Hs Hp Hq. unfold kept. rewrite Hs, Hp, Hq. apply kept_refl.
Qed.

Lemma setBufferCountServerLocked_kept (k : Z) (s s' : State) :
  state_after (setBufferCountServerLocked k s) = Some s' -> kept s s'.
Proof.
  unfold setBufferCountServerLocked. intros H.
  destruct (k >? NUM_BUFFER_SLOTS); simpl in H;
    [injection H as <-; apply kept_refl|].
  destruct (k =? mBufferCount s); simpl in H;
    [injection H as <-; apply kept_refl|].
  destruct ((mClientBufferCount s =? 0) && (k >=? mBufferCount s));
    simpl in H; [injection H as <-; apply kept_same; reflexivity|].
  destruct (k <? 2); simpl in H; injection H as <-;
    [apply kept_refl|apply kept_same; reflexivity].
Qed.

Lemma exec_kept (op : Op) (s s' : State) : exec op s = Some s' -> kept s s'.
Proof.
  destruct op; simpl; intros H.
  - apply setBufferCountServerLocked_kept with (k := bufferCount). exact H.
  - unfold setBufferCount in H.
    destruct (bufferCount >? NUM_BUFFER_SLOTS); simpl in H;
      [injection H as <-; apply kept_refl|].
    destruct (client_owns_buffers _ _) as [[|]|]; simpl in H;
      [injection H as <-; apply kept_refl| |discriminate].
    destruct (bufferCount =? 0).
    + eapply kept_trans; [|eapply setBufferCountServerLocked_kept; exact H].
      apply kept_same; reflexivity.
    + destruct (bufferCount <? MIN_ASYNC_BUFFER_SLOTS); simpl in H;
        injection H as <-; [apply kept_refl|].
      split; [|split; intros H; [exact H|reflexivity]].
      apply (freeAll_released
               (set_mQueue []
                  (set_mCurrentSlot INVALID_BUFFER_SLOT
                     (set_mClientBufferCount bufferCount
                        (set_mBufferCount bufferCount s))))).
  - unfold requestBuffer in H.
    destruct ((slot <? 0) || (mBufferCount s <=? slot)); simpl in H;
      [injection H as <-; apply kept_refl|].
    destruct (mSlots s !! Z.to_nat slot); simpl in H; [|discriminate].
    injection H as <-.
    split; [|split; intros H; exact H]. simpl.
    apply slots_only_released_alter, set_requested_released.
  - unfold setSynchronousMode in H.
    destruct (mStopped s) eqn:Hp; simpl in H;
      [injection H as <-; apply kept_refl|].
    destruct enabled; simpl in H; [|injection H as <-; apply kept_refl].
    destruct (mSynchronousMode s); simpl in H; injection H as <-;
      [apply kept_refl|apply kept_same; reflexivity].
  - unfold connect in H.
    destruct (mStopped s); simpl in H; [injection H as <-; apply kept_refl|].
    destruct (is_producer_api api); simpl in H;
      [|injection H as <-; apply kept_refl].
    destruct (api_eqb (mConnectedApi s) NO_CONNECTED_API); simpl in H;
      injection H as <-; [apply kept_same; reflexivity|apply kept_refl].
  - unfold disconnect in H.
    destruct (mStopped s); simpl in H; [injection H as <-; apply kept_refl|].
    destruct (is_producer_api api); simpl in H;
      [|injection H as <-; apply kept_refl].
    destruct (api_eqb (mConnectedApi s) api); simpl in H;
      injection H as <-; [|apply kept_refl].
    split; [apply slots_only_released_refl|].
    split; intros H; [reflexivity|exact H].
  - injection H as <-. apply kept_same; reflexivity.
  - unfold setFrameRate in H.
    destruct ((fps <? 0) || (fps >? MAX_FRAME_RATE)); simpl in H;
      injection H as <-; [apply kept_refl|apply kept_same; reflexivity].
  - unfold start in H. destruct params; simpl in H; injection H as <-;
      apply kept_same; reflexivity.
  - injection H as <-.
    split; [|split; intros H; reflexivity].
    apply (freeAll_released (set_mQueue [] (set_mStopped true s))).
  - unfold read in H. destruct (mStopped s) eqn:Hp; simpl in H;
      [injection H as <-; apply kept_refl|].
    destruct (mQueue s) as [|front rest] eqn:Hq; simpl in H; [discriminate|].
    destruct (slot_at _ _) as [sl|]; [|discriminate].
    destruct (passMetadataBufferLocked _); simpl in H; [|discriminate].
    injection H as <-.
    split; [apply slots_only_released_refl|].
    split; [intros Hs; congruence|intros Hs; congruence].
  - destruct (mStopped s) eqn:Hp.
    + unfold signalBufferReturned in H. rewrite Hp in H.
      injection H as <-. apply kept_refl.
    + destruct (signalBufferReturned buffer s) as [[] s0 evs| | |] eqn:Hret;
        simpl in H; try discriminate.
      injection H as <-.
      destruct (signal_returns_inv _ _ _ _ Hp Hret) as (id & _ & _ & -> & _).
      split; [|split; intros H; exact H]. simpl.
      apply slots_only_released_alter, set_free_released.
  - injection H as <-. apply kept_refl.
  - injection H as <-. apply kept_same; reflexivity.
Qed.

Lemma run_kept (ops : list Op) (s s' : State) :
  run ops s = Some s' -> kept s s'.
Proof.
  revert s. induction ops as [|op ops IH]; intros s; simpl.
  - intros H. injection H as <-. apply kept_refl.
  - destruct (exec op s) as [s1|] eqn:Hexec; [|discriminate].
    intros Hrun. eapply kept_trans; [eapply exec_kept; exact Hexec|].
    apply IH. exact Hrun.
Qed.




(** *** Well-formedness is kept by every call *)

Lemma wf_state_same (s s' : State) :
  mSlots s' = mSlots s -> mBufferCount s' = mBufferCount s ->
  wf_state s -> wf_state s'.
Proof. unfold wf_state. intros -> ->. tauto. Qed.

Lemma setBufferCountServerLocked_wf (k : Z) (s s' : State) :
  state_after (setBufferCountServerLocked k s) = Some s' ->
  wf_state s -> wf_state s'.
Proof.
  unfold setBufferCountServerLocked. intros H Hwf.
  destruct (Z.gtb_spec k NUM_BUFFER_SLOTS) as [Hgt|Hle]; simpl in H;
    [injection H as <-; exact Hwf|].
  destruct (k =? mBufferCount s); simpl in H;
    [injection H as <-; exact Hwf|].
  destruct ((mClientBufferCount s =? 0) && (k >=? mBufferCount s));
    simpl in H.
  - injection H as <-. destruct Hwf as [Hlen _]. split; [exact Hlen|].
    simpl. lia.
  - destruct (k <? 2); simpl in H; injection H as <-; exact Hwf.
Qed.

Lemma exec_wf (op : Op) (s s' : State) :
  exec op s = Some s' -> wf_state s -> wf_state s'.
Proof.
  destruct op; simpl; intros H Hwf.
  - eapply setBufferCountServerLocked_wf; [exact H|exact Hwf].
  - unfold setBufferCount in H.
    destruct (Z.gtb_spec bufferCount NUM_BUFFER_SLOTS) as [Hgt|Hle];
      simpl in H; [injection H as <-; exact Hwf|].
    destruct (client_owns_buffers _ _) as [[|]|]; simpl in H;
      [injection H as <-; exact Hwf| |discriminate].
    destruct (bufferCount =? 0).
    + eapply setBufferCountServerLocked_wf; [exact H|].
      eapply wf_state_same; [| |exact Hwf]; reflexivity.
    + destruct (bufferCount <? MIN_ASYNC_BUFFER_SLOTS); simpl in H;
        injection H as <-; [exact Hwf|].
      destruct Hwf as [Hlen _]. split; [|simpl; lia].
      unfold freeAllBuffersLocked. simpl.
      rewrite foldl_alter_length. exact Hlen.
  - unfold requestBuffer in H.
    destruct ((slot <? 0) || (mBufferCount s <=? slot)); simpl in H;
      [injection H as <-; exact Hwf|].
    destruct (mSlots s !! Z.to_nat slot); simpl in H; [|discriminate].
    injection H as <-. destruct Hwf as [Hlen Hcnt].
    split; [|exact Hcnt]. simpl. rewrite length_alter. exact Hlen.
  - unfold setSynchronousMode in H.
    destruct (mStopped s); simpl in H; [injection H as <-; exact Hwf|].
    destruct enabled; simpl in H; [|injection H as <-; exact Hwf].
    destruct (mSynchronousMode s); simpl in H; injection H as <-;
      exact Hwf.
  - unfold connect in H.
    destruct (mStopped s); simpl in H; [injection H as <-; exact Hwf|].
    destruct (is_producer_api api); simpl in H;
      [|injection H as <-; exact Hwf].
    destruct (api_eqb (mConnectedApi s) NO_CONNECTED_API); simpl in H;
      injection H as <-; exact Hwf.
  - unfold disconnect in H.
    destruct (mStopped s); simpl in H; [injection H as <-; exact Hwf|].
    destruct (is_producer_api api); simpl in H;
      [|injection H as <-; exact Hwf].
    destruct (api_eqb (mConnectedApi s) api); simpl in H;
      injection H as <-; exact Hwf.
  - injection H as <-. exact Hwf.
  - unfold setFrameRate in H.
    destruct ((fps <? 0) || (fps >? MAX_FRAME_RATE)); simpl in H;
      injection H as <-; exact Hwf.
  - unfold start in H. destruct params; simpl in H; injection H as <-;
      exact Hwf.
  - injection H as <-. destruct Hwf as [Hlen Hcnt]. split; [|exact Hcnt].
    unfold freeAllBuffersLocked. simpl.
    rewrite foldl_alter_length. exact Hlen.
  - unfold read in H. destruct (mStopped s); simpl in H;
      [injection H as <-; exact Hwf|].
    destruct (mQueue s) as [|front rest]; simpl in H; [discriminate|].
    destruct (slot_at _ _) as [sl|]; [|discriminate].
    destruct (passMetadataBufferLocked _); simpl in H; [|discriminate].
    injection H as <-. exact Hwf.
  - destruct (mStopped s) eqn:Hp.
    + unfold signalBufferReturned in H. rewrite Hp in H.
      injection H as <-. exact Hwf.
    + destruct (signalBufferReturned buffer s) as [[] s0 evs| | |] eqn:Hret;
        simpl in H; try discriminate.
      injection H as <-.
      destruct (signal_returns_inv _ _ _ _ Hp Hret) as (id & _ & _ & -> & _).
      destruct Hwf as [Hlen Hcnt]. split; [|exact Hcnt].
      simpl. rewrite length_alter. exact Hlen.
  - injection H as <-. exact Hwf.
  - injection H as <-. exact Hwf.
Qed.


(** ** Further properties of the operations *)

(** *** One [read] *)

Lemma read_front (s : State) (i : Z) (rest : list Z) (sl : BufferSlot)
    (gb : GraphicBuffer) :
  mStopped s = false ->
  mQueue s = i :: rest ->
  slot_at (mSlots s) i = Some sl ->
  mGraphicBuffer sl = Some gb ->
  exists (b : MediaBuffer) (s1 : State),
    read s = Done (OK, Some b) s1 [] /\
    (mb_data b =
       le_split 4 kMetadataBufferTypeGrallocSource ++
       le_split sizeof_buffer_handle_t (handle gb) /\
     mb_kKeyTime b = Some (Z.quot (mTimestamp sl) 1000) /\
     mb_observer b = true /\ mb_refcount b = 1) /\
    (mQueue s1 = rest /\ mSlots s1 = mSlots s /\ mStopped s1 = false) /\
    (mCurrentSlot s1 = i /\ mCurrentBuf s1 = Some gb /\
     mCurrentTimestamp s1 = mTimestamp sl /\
     mNumFramesEncoded s1 = wrap_signed 32 (mNumFramesEncoded s + 1)) /\
    (mDefaultWidth s1 = mDefaultWidth s /\
     mDefaultHeight s1 = mDefaultHeight s /\
     mBufferCount s1 = mBufferCount s).
Proof.
  intros Hrun Hq Hsl Hgb. unfold read. rewrite Hrun, Hq.
  rewrite bool_decide_eq_false_2 by discriminate. simpl.
  rewrite Hsl. unfold passMetadataBufferLocked. simpl. rewrite Hgb.
  eexists _, _. split; [reflexivity|]. simpl.
  split; [repeat split|]. split; [repeat split; assumption|].
  split; repeat split.
Qed.

(** X1.  A [read] on a running session whose first queue entry names a
    slot with a buffer returns [OK] and takes exactly that entry off the
    Ready Queue.  The slot table is untouched, so the slot keeps its state
    until the record comes back; the slot becomes the current one, and
    [getCurrentBuffer] and [getTimestamp] answer with its buffer and time
    stamp.  The record carries the time stamp in microseconds, rounded
    toward zero. *)
Theorem read_delivers_front (s : State) (i : Z) (rest : list Z)
    (sl : BufferSlot) (gb : GraphicBuffer) :
  mStopped s = false ->
  mQueue s = i :: rest ->
  slot_at (mSlots s) i = Some sl ->
  mGraphicBuffer sl = Some gb ->
  exists (b : MediaBuffer) (s1 : State),
    read s = Done (OK, Some b) s1 [] /\
    record_of_slot (mSlots s) i b /\
    S (getQueuedCount s1) = getQueuedCount s /\
    mQueue s1 = rest /\
    mSlots s1 = mSlots s /\
    mCurrentSlot s1 = i /\
    getCurrentBuffer s1 = Some gb /\
    getTimestamp s1 = mTimestamp sl.
Proof.
  intros Hrun Hq Hsl Hgb.
  destruct (read_front s i rest sl gb Hrun Hq Hsl Hgb)
    as (b & s1 & Hread & (Hdata & Htime & _) & (Hq1 & Hs1 & _) &
        (Hcur & Hbuf & Hts & _) & _).
  exists b, s1. split; [exact Hread|]. split.
  { exists sl, gb. auto. }
  unfold getQueuedCount, getCurrentBuffer, getTimestamp.
  rewrite Hq, Hq1. simpl. auto 10.
Qed.

(** X2.  Frames leave in the order of the Ready Queue.  On a running
    session whose queue entries all name slots with buffers, as many
    [read]s as there are entries all return [OK]; the records are, in
    queue order, those of the queued slots; afterwards the queue is
    empty, the slot table is as before, and one more [read] waits. *)
Theorem read_frames_fifo (s : State) :
  mStopped s = false ->
  Forall (holds_buffer (mSlots s)) (mQueue s) ->
  exists (bs : list MediaBuffer) (s' : State),
    read_frames (length (mQueue s)) s = (bs, Done OK s' []) /\
    Forall2 (record_of_slot (mSlots s)) (mQueue s) bs /\
    mQueue s' = [] /\
    mSlots s' = mSlots s /\
    read s' = Blocked.
Proof.
  remember (mQueue s) as q eqn:Hq. revert s Hq.
  induction q as [|i rest IH]; intros s Hq Hrun Hall; simpl.
  - exists [], s. split; [reflexivity|]. split; [constructor|].
    split; [symmetry; exact Hq|]. split; [reflexivity|].
    unfold read. rewrite Hrun, <- Hq. reflexivity.
  - inversion Hall as [|? ? (sl & gb & Hsl & Hgb) Hrest]; subst.
    destruct (read_front s i rest sl gb Hrun (eq_sym Hq) Hsl Hgb)
      as (b & s1 & Hread & (Hdata & Htime & _) & (Hq1 & Hs1 & Hrun1) & _).
    rewrite Hread.
    destruct (IH s1 (eq_sym Hq1) Hrun1) as (bs & s' & Hfr & Hrec & Hq' & Hs' & Hblk).
    { rewrite Hs1. exact Hrest. }
    rewrite Hfr. exists (b :: bs), s'. split; [reflexivity|].
    split.
    { constructor; [exists sl, gb; auto|]. rewrite <- Hs1. exact Hrec. }
    split; [exact Hq'|]. split; [congruence|exact Hblk].
Qed.

(** *** The layout of the record *)

(** X3.  The record [passMetadataBufferLocked] makes for the current
    buffer has [4 + sizeof(buffer_handle_t)] bytes; its first four bytes
    decode, little-endian, to the type tag, and the bytes
    [checkBufferMatchesSlot] reads back decode to the handle of the
    buffer.  Without a current buffer no record is made. *)
Theorem passMetadataBufferLocked_layout (s : State) :
  (mCurrentBuf s = None -> passMetadataBufferLocked s = None) /\
  (forall gb,
     mCurrentBuf s = Some gb ->
     handle_fits (handle gb) ->
     0 <= kMetadataBufferTypeGrallocSource < 2 ^ 32 ->
     exists b,
       passMetadataBufferLocked s = Some b /\
       length (mb_data b) = (4 + sizeof_buffer_handle_t)%nat /\
       le_combine (take 4 (mb_data b)) = kMetadataBufferTypeGrallocSource /\
       record_handle b = Some (handle gb)).
Proof.
  unfold passMetadataBufferLocked. split.
  - intros ->. reflexivity.
  - intros gb -> Hfits Htag. eexists. split; [reflexivity|].
    cbn [mb_data]. split; [|split].
    + rewrite length_app, !length_le_split. reflexivity.
    + rewrite take_app_length' by (rewrite length_le_split; reflexivity).
      rewrite le_combine_split. apply Z.mod_small. simpl. exact Htag.
    + eapply record_handle_le_split; [reflexivity|exact Hfits].
Qed.

(** *** A stopped session *)

Lemma client_owns_buffers_total (slots : list BufferSlot) (ids : list nat) :
  (forall i, In i ids -> (i < length slots)%nat) ->
  exists b, client_owns_buffers slots ids = Some b.
Proof.
  intros Hin. induction ids as [|i ids IH]; simpl; [eauto|].
  destruct (lookup_lt_is_Some_2 slots i) as [sl Hsl].
  { apply Hin. left. reflexivity. }
  rewrite Hsl. destruct (BufferState_eqb (mBufferState sl) DEQUEUED);
    [eauto|].
  apply IH. intros j Hj. apply Hin. right. exact Hj.
Qed.

Lemma exec_stopped_returns (op : Op) (s : State) :
  wf_state s -> mStopped s = true -> exists s', exec op s = Some s'.
Proof.
  intros [Hlen Hcnt] Hp. destruct op; simpl.
  - unfold setBufferCountServer, setBufferCountServerLocked.
    destruct (bufferCount >? NUM_BUFFER_SLOTS); [simpl; eauto|].
    destruct (bufferCount =? mBufferCount s); [simpl; eauto|].
    destruct ((mClientBufferCount s =? 0) && (bufferCount >=? mBufferCount s));
      [simpl; eauto|].
    destruct (bufferCount <? 2); simpl; eauto.
  - unfold setBufferCount.
    destruct (bufferCount >? NUM_BUFFER_SLOTS); [simpl; eauto|].
    destruct (client_owns_buffers_total (mSlots s)
                (loop_indices (mBufferCount s))) as [b Hb].
    { intros i Hi. apply loop_indices_bound in Hi. lia. }
    rewrite Hb. destruct b; [simpl; eauto|].
    destruct (bufferCount =? 0).
    + unfold setBufferCountServerLocked.
      repeat match goal with
             | |- context [if ?c then _ else _] => destruct c
             end; simpl; eauto.
    + destruct (bufferCount <? MIN_ASYNC_BUFFER_SLOTS); simpl; eauto.
  - unfold requestBuffer.
    destruct (Z.ltb_spec slot 0); [simpl; eauto|].
    destruct (Z.leb_spec (mBufferCount s) slot); simpl; [eauto|].
    destruct (lookup_lt_is_Some_2 (mSlots s) (Z.to_nat slot)) as [sl Hsl];
      [lia|].
    rewrite Hsl. simpl. eauto.
  - unfold setSynchronousMode. rewrite Hp. simpl. eauto.
  - unfold connect. rewrite Hp. simpl. eauto.
  - unfold disconnect. rewrite Hp. simpl. eauto.
  - eauto.
  - unfold setFrameRate.
    destruct ((fps <? 0) || (fps >? MAX_FRAME_RATE)); simpl; eauto.
  - unfold start. destruct params; simpl; eauto.
  - eauto.
  - unfold read. rewrite Hp. simpl. eauto.
  - unfold signalBufferReturned. rewrite Hp. simpl. eauto.
  - eauto.
  - eauto.
Qed.

Lemma run_stopped_returns (ops : list Op) (s : State) :
  wf_state s -> mStopped s = true -> exists s', run ops s = Some s'.
Proof.
  revert s. induction ops as [|op ops IH]; intros s Hwf Hp; simpl; [eauto|].
  destruct (exec_stopped_returns op s Hwf Hp) as [s1 Hs1]. rewrite Hs1.
  apply IH.
  - eapply exec_wf; eassumption.
  - destruct (exec_kept _ _ _ Hs1) as (_ & Hkeep & _). apply Hkeep, Hp.
Qed.

(** X4.  The stopped state is final.  From a stopped session every
    sequence of calls runs to its end, no call waiting or aborting, and
    in the state it reaches the session is still stopped: [read] answers
    end of stream, [connect], [disconnect] and [setSynchronousMode]
    answer [NO_INIT], and [signalBufferReturned] does nothing. *)
Theorem stopped_is_final (s : State) (ops : list Op) :
  wf_state s ->
  mStopped s = true ->
  exists s2 : State,
    run ops s = Some s2 /\
    mStopped s2 = true /\
    read s2 = Done (ERROR_END_OF_STREAM, None) s2 [] /\
    (forall api, connect api s2 = Done (NO_INIT, None) s2 []) /\
    (forall api, disconnect api s2 = Done NO_INIT s2 []) /\
    (forall enabled, setSynchronousMode enabled s2 = Done NO_INIT s2 []) /\
    (forall buffer, signalBufferReturned buffer s2 = Done tt s2 []).
Proof.
  intros Hwf Hp. destruct (run_stopped_returns ops s Hwf Hp) as [s2 Hrun].
  exists s2. split; [exact Hrun|].
  destruct (run_kept _ _ _ Hrun) as (_ & Hkeep & _).
  specialize (Hkeep Hp). split; [exact Hkeep|].
  unfold read, connect, disconnect, setSynchronousMode, signalBufferReturned.
  rewrite Hkeep. simpl. repeat split.
Qed.

(** *** The producer's connection *)

Lemma api_eqb_eq (a b : api_t) : api_eqb a b = true <-> a = b.
Proof.
  split; [|intros ->; apply api_eqb_refl].
  destruct a, b; simpl; try discriminate; try reflexivity.
  intros H. apply Z.eqb_eq in H. congruence.
Qed.

(** X5.  One producer at a time, once.  On a running session with nobody
    connected, [connect] with a producer identity succeeds, records the
    identity and returns the default size and a zero transform.  From
    then on every [connect] fails with [-EINVAL], and so does a
    [disconnect] with any other identity, both leaving the state alone.
    The [disconnect] with the recorded identity succeeds, and after it
    every [connect] answers [NO_INIT]: the session cannot be connected
    again. *)
Theorem connect_lifecycle (api : api_t) (s : State) :
  is_producer_api api = true ->
  mStopped s = false ->
  mConnectedApi s = NO_CONNECTED_API ->
  exists s1 s2 : State,
    connect api s =
      Done (NO_ERROR, Some (mDefaultWidth s, mDefaultHeight s, 0)) s1 [] /\
    mConnectedApi s1 = api /\
    (forall api2, connect api2 s1 = Done (NEG_EINVAL, None) s1 []) /\
    (forall api2, api2 <> api -> disconnect api2 s1 = Done NEG_EINVAL s1 []) /\
    disconnect api s1 =
      Done NO_ERROR s2
        [Signal mDequeueCondition; Signal mFrameAvailableCondition] /\
    mConnectedApi s2 = NO_CONNECTED_API /\
    (forall api3, connect api3 s2 = Done (NO_INIT, None) s2 []).
Proof.
  intros Hapi Hrun Hnone.
  exists (set_mConnectedApi api s),
    (set_mStopped true
       (set_mConnectedApi NO_CONNECTED_API (set_mConnectedApi api s))).
  split.
  { unfold connect. rewrite Hrun, Hapi, Hnone. reflexivity. }
  split; [reflexivity|]. split.
  { intros api2. unfold connect. simpl. rewrite Hrun.
    destruct (is_producer_api api2); [|reflexivity].
    destruct api; try discriminate Hapi; reflexivity. }
  split.
  { intros api2 Hne. unfold disconnect. simpl. rewrite Hrun.
    destruct (is_producer_api api2); [|reflexivity].
    destruct (api_eqb api api2) eqn:Heq; [|reflexivity].
    apply api_eqb_eq in Heq. congruence. }
  split.
  { unfold disconnect. simpl. rewrite Hrun, Hapi, api_eqb_refl.
    reflexivity. }
  split; [reflexivity|]. intros api3. reflexivity.
Qed.

(** *** [requestBuffer] *)

(** X6.  [requestBuffer] checks the slot index against the buffer count
    in use: a negative index or one at or beyond [mBufferCount] gives
    [BAD_VALUE] and changes nothing.  An index within the count never
    leaves the slot table; the call returns the slot's buffer reference,
    and afterwards the slot has its requested flag set, with its state,
    buffer and time stamp as before, and every other slot is as it
    was. *)
Theorem requestBuffer_bounds (slot : Z) (s : State) :
  wf_state s ->
  (slot < 0 \/ mBufferCount s <= slot ->
   requestBuffer slot s = Done (BAD_VALUE, None) s []) /\
  (0 <= slot < mBufferCount s ->
   exists sl sl' s',
     mSlots s !! Z.to_nat slot = Some sl /\
     requestBuffer slot s = Done (NO_ERROR, Some (mGraphicBuffer sl)) s' [] /\
     mSlots s' !! Z.to_nat slot = Some sl' /\
     mRequestBufferCalled sl' = true /\
     mBufferState sl' = mBufferState sl /\
     mGraphicBuffer sl' = mGraphicBuffer sl /\
     mTimestamp sl' = mTimestamp sl /\
     (forall j, j <> Z.to_nat slot -> mSlots s' !! j = mSlots s !! j)).
Proof.
  intros [Hlen Hcnt]. unfold requestBuffer. split.
  - intros Hout.
    destruct (Z.ltb_spec slot 0); [reflexivity|].
    destruct (Z.leb_spec (mBufferCount s) slot); [reflexivity|lia].
  - intros Hin.
    destruct (Z.ltb_spec slot 0); [lia|].
    destruct (Z.leb_spec (mBufferCount s) slot); [lia|]. simpl.
    destruct (lookup_lt_is_Some_2 (mSlots s) (Z.to_nat slot)) as [sl Hsl];
      [lia|].
    rewrite Hsl. exists sl, (set_slot_requested sl). eexists.
    split; [reflexivity|]. split; [reflexivity|]. simpl. split.
    { rewrite list_lookup_alter, decide_True by reflexivity.
      rewrite Hsl. reflexivity. }
    split; [reflexivity|]. split; [reflexivity|].
    split; [reflexivity|]. split; [reflexivity|].
    intros j Hj. apply list_lookup_alter_ne. congruence.
Qed.

(** *** The client's buffer count *)

Lemma client_owns_buffers_found (slots : list BufferSlot) (ids : list nat)
    (i : nat) (sl : BufferSlot) :
  (forall j, In j ids -> (j < length slots)%nat) ->
  In i ids -> slots !! i = Some sl -> mBufferState sl = DEQUEUED ->
  client_owns_buffers slots ids = Some true.
Proof.
  intros Hlen Hin Hsl Hst. induction ids as [|j ids IH]; [destruct Hin|].
  simpl. destruct (lookup_lt_is_Some_2 slots j) as [slj Hslj].
  { apply Hlen. left. reflexivity. }
  rewrite Hslj.
  destruct (BufferState_eqb (mBufferState slj) DEQUEUED) eqn:Hj;
    [reflexivity|].
  destruct Hin as [-> | Hin].
  - rewrite Hsl in Hslj. injection Hslj as <-. rewrite Hst in Hj.
    discriminate Hj.
  - apply IH; [|exact Hin]. intros k Hk. apply Hlen. right. exact Hk.
Qed.

Lemma client_owns_buffers_below (slots : list BufferSlot) (n : Z) :
  n <= Z.of_nat (length slots) ->
  (forall i sl, Z.of_nat i < n -> slots !! i = Some sl ->
                mBufferState sl <> DEQUEUED) ->
  client_owns_buffers slots (loop_indices n) = Some false.
Proof.
  intros Hn Hno.
  assert (Hgen : forall ids,
             (forall i, In i ids -> Z.of_nat i < n) ->
             client_owns_buffers slots ids = Some false).
  { induction ids as [|i ids IH]; intros Hids; simpl; [reflexivity|].
    assert (Hi : Z.of_nat i < n) by (apply Hids; left; reflexivity).
    destruct (lookup_lt_is_Some_2 slots i) as [sl Hsl]; [lia|].
    rewrite Hsl. specialize (Hno i sl Hi Hsl).
    destruct (mBufferState sl); simpl; try contradiction;
      apply IH; intros j Hj; apply Hids; right; exact Hj. }
  apply Hgen. intros i Hi. apply loop_indices_bound. exact Hi.
Qed.

(** X7.  While the client holds a buffer the count cannot be changed.
    With a DEQUEUED slot among the [mBufferCount] slots in use, every
    [setBufferCount] within the capacity, the reset with 0 included,
    fails with [INVALID_OPERATION] and changes nothing.  A count beyond
    the capacity is refused with [BAD_VALUE] before the slots are looked
    at. *)
Theorem setBufferCount_client_owns (s : State) (i : nat) (sl : BufferSlot) :
  wf_state s ->
  Z.of_nat i < mBufferCount s ->
  mSlots s !! i = Some sl ->
  mBufferState sl = DEQUEUED ->
  forall k : Z,
    (k <= NUM_BUFFER_SLOTS ->
     setBufferCount k s = Done INVALID_OPERATION s []) /\
    (k > NUM_BUFFER_SLOTS -> setBufferCount k s = Done BAD_VALUE s []).
Proof.
  intros [Hlen Hcnt] Hi Hsl Hst k. unfold setBufferCount. split; intros Hk.
  - destruct (Z.gtb_spec k NUM_BUFFER_SLOTS); [lia|].
    rewrite (client_owns_buffers_found _ _ i sl); [reflexivity| | |exact Hsl|exact Hst].
    + intros j Hj. apply loop_indices_bound in Hj. lia.
    + unfold loop_indices. apply in_seq. lia.
  - destruct (Z.gtb_spec k NUM_BUFFER_SLOTS); [reflexivity|lia].
Qed.

Lemma scan_all_free (ids : list nat) (buffer : MediaBuffer) (s : State) :
  (forall j, In j ids -> (j < length (mSlots s))%nat) ->
  all_slots_free (mSlots s) ->
  signalBufferReturned_scan ids buffer s = Done false s [].
Proof.
  intros Hlen Hfree. induction ids as [|id ids IH]; simpl; [reflexivity|].
  destruct (lookup_lt_is_Some_2 (mSlots s) id) as [sl Hsl].
  { apply Hlen. left. reflexivity. }
  rewrite Hsl. destruct (Hfree id sl Hsl) as [_ ->].
  apply IH. intros j Hj. apply Hlen. right. exact Hj.
Qed.

(** X8.  A client count drops everything in flight.  On a running
    session with no DEQUEUED slot among those in use, [setBufferCount(k)]
    for [k] from the client minimum to the capacity succeeds: [k] is the
    buffer count and the client count, the current slot is reset, the
    Ready Queue is empty and every slot is FREE without a buffer.  Frames
    that were queued are never delivered (the next [read] waits), and a
    record that was still out can no longer be returned:
    [signalBufferReturned] aborts on any record. *)
Theorem setBufferCount_drops_frames (k : Z) (s : State) :
  wf_state s ->
  mStopped s = false ->
  0 < k ->
  MIN_ASYNC_BUFFER_SLOTS <= k <= NUM_BUFFER_SLOTS ->
  (forall i sl, Z.of_nat i < mBufferCount s -> mSlots s !! i = Some sl ->
                mBufferState sl <> DEQUEUED) ->
  exists s' : State,
    setBufferCount k s = Done OK s' [Signal mDequeueCondition] /\
    mBufferCount s' = k /\ mClientBufferCount s' = k /\
    mCurrentSlot s' = INVALID_BUFFER_SLOT /\
    mQueue s' = [] /\
    all_slots_free (mSlots s') /\
    read s' = Blocked /\
    (forall buffer, signalBufferReturned buffer s' = Fatal).
Proof.
  intros [Hlen Hcnt] Hrun Hpos Hk Hno.
  eexists. split.
  { unfold setBufferCount.
    destruct (Z.gtb_spec k NUM_BUFFER_SLOTS); [lia|].
    rewrite client_owns_buffers_below by (assumption || lia).
    destruct (Z.eqb_spec k 0); [lia|].
    destruct (Z.ltb_spec k MIN_ASYNC_BUFFER_SLOTS); [lia|]. reflexivity. }
  split; [reflexivity|]. split; [reflexivity|]. split; [reflexivity|].
  split; [reflexivity|].
  assert (Hfree : all_slots_free
            (mSlots (freeAllBuffersLocked
               (set_mQueue []
                  (set_mCurrentSlot INVALID_BUFFER_SLOT
                     (set_mClientBufferCount k (set_mBufferCount k s)))))))
    by (apply freeAll_all_free; exact Hlen).
  split; [exact Hfree|]. split.
  { unfold read. simpl. rewrite Hrun. reflexivity. }
  intros buffer. unfold signalBufferReturned.
  change (mStopped (freeAllBuffersLocked
            (set_mQueue []
               (set_mCurrentSlot INVALID_BUFFER_SLOT
                  (set_mClientBufferCount k (set_mBufferCount k s))))))
    with (mStopped s).
  rewrite Hrun. rewrite scan_all_free; [reflexivity| |exact Hfree].
  intros j Hj. apply loop_indices_bound in Hj.
  unfold freeAllBuffersLocked. simpl. rewrite foldl_alter_length. lia.
Qed.

(** X9.  The reset [setBufferCount(0)] gives the count back to the
    server without dropping anything.  With no DEQUEUED slot among those
    in use, minimum counts of at least 2 within the capacity and a server
    count within the capacity, it returns [OK]; no client count is in
    effect afterwards, the buffer count in use has not gone down and is
    at least the larger of the server count and the minimum for the
    mode, and the Ready Queue and every slot are as they were. *)
Theorem setBufferCount_zero_resets (s : State) :
  wf_state s ->
  (forall i sl, Z.of_nat i < mBufferCount s -> mSlots s !! i = Some sl ->
                mBufferState sl <> DEQUEUED) ->
  2 <= MIN_SYNC_BUFFER_SLOTS <= NUM_BUFFER_SLOTS ->
  2 <= MIN_ASYNC_BUFFER_SLOTS <= NUM_BUFFER_SLOTS ->
  mServerBufferCount s <= NUM_BUFFER_SLOTS ->
  exists (s' : State) (evs : list Event),
    setBufferCount 0 s = Done OK s' evs /\
    mClientBufferCount s' = 0 /\
    mBufferCount s' =
      Z.max (mBufferCount s)
        (Z.max (mServerBufferCount s)
           (if mSynchronousMode s then MIN_SYNC_BUFFER_SLOTS
            else MIN_ASYNC_BUFFER_SLOTS)) /\
    mQueue s' = mQueue s /\
    mSlots s' = mSlots s /\
    mStopped s' = mStopped s.
Proof.
  intros [Hlen Hcnt] Hno Hsync Hasync Hserver.
  unfold setBufferCount.
  destruct (Z.gtb_spec 0 NUM_BUFFER_SLOTS); [lia|].
  rewrite client_owns_buffers_below by (assumption || lia).
  simpl. unfold setBufferCountServerLocked. simpl.
  set (m := if mSynchronousMode s then MIN_SYNC_BUFFER_SLOTS
            else MIN_ASYNC_BUFFER_SLOTS).
  assert (Hm : 2 <= m <= NUM_BUFFER_SLOTS)
    by (unfold m; destruct (mSynchronousMode s); assumption).
  set (k := if mServerBufferCount s >=? m then mServerBufferCount s else m).
  assert (Hk : k = Z.max (mServerBufferCount s) m).
  { unfold k. destruct (Z.geb_spec (mServerBufferCount s) m); lia. }
  destruct (Z.gtb_spec k NUM_BUFFER_SLOTS); [lia|].
  destruct (Z.eqb_spec k (mBufferCount s)).
  { eexists _, _. split; [reflexivity|]. simpl.
    repeat split; try reflexivity. lia. }
  destruct (Z.geb_spec k (mBufferCount s)).
  { eexists _, _. split; [reflexivity|]. simpl.
    repeat split; try reflexivity. lia. }
  destruct (Z.ltb_spec k 2); [lia|].
  eexists _, _. split; [reflexivity|]. simpl.
  repeat split; try reflexivity. lia.
Qed.

(** X10.  A client count outranks the server.  While a client count is
    in effect, [setBufferCountServer] with any argument returns without
    changing the buffer count in use, the client count, the Ready Queue
    or a slot, and without a signal; at most it records the server
    count. *)
Theorem client_count_outranks_server (k : Z) (s : State) :
  mClientBufferCount s <> 0 ->
  exists (r : status_t) (s' : State),
    setBufferCountServer k s = Done r s' [] /\
    mBufferCount s' = mBufferCount s /\
    mClientBufferCount s' = mClientBufferCount s /\
    mQueue s' = mQueue s /\
    mSlots s' = mSlots s /\
    (r = OK \/ r = BAD_VALUE) /\
    (r = BAD_VALUE -> s' = s).
Proof.
  intros Hcl. unfold setBufferCountServer, setBufferCountServerLocked.
  destruct (k >? NUM_BUFFER_SLOTS).
  { eexists _, _. split; [reflexivity|]. auto 10. }
  destruct (k =? mBufferCount s).
  { eexists _, _. split; [reflexivity|]. auto 10. }
  destruct (Z.eqb_spec (mClientBufferCount s) 0); [contradiction|]. simpl.
  destruct (k <? 2).
  { eexists _, _. split; [reflexivity|]. auto 10. }
  eexists _, _. split; [reflexivity|].
  repeat split; auto; intros H; discriminate H.
Qed.

(** *** What no sequence of calls undoes *)

Lemma more_same (s s' : State) :
  mSynchronousMode s' = mSynchronousMode s ->
  mFrameRate s' = mFrameRate s ->
  mQueue s' = mQueue s ->
  mConnectedApi s' = mConnectedApi s ->
  (mSynchronousMode s = true -> mSynchronousMode s' = true) /\
  (0 <= mFrameRate s <= MAX_FRAME_RATE ->
   0 <= mFrameRate s' <= MAX_FRAME_RATE) /\
  (exists k, mQueue s' = drop k (mQueue s)) /\
  (connected_api_ok (mConnectedApi s) ->
   connected_api_ok (mConnectedApi s')).
Proof.
  intros -> -> -> ->. split; [tauto|]. split; [tauto|].
  split; [exists 0%nat; reflexivity|tauto].
Qed.

Lemma setBufferCountServerLocked_same (k : Z) (s s' : State) :
  state_after (setBufferCountServerLocked k s) = Some s' ->
  mSynchronousMode s' = mSynchronousMode s /\
  mFrameRate s' = mFrameRate s /\
  mQueue s' = mQueue s /\
  mConnectedApi s' = mConnectedApi s.
Proof.
  unfold setBufferCountServerLocked. intros H.
  repeat match type of H with
         | context [if ?c then _ else _] => destruct c
         end; simpl in H; injection H as <-; repeat split.
Qed.

Lemma exec_more (op : Op) (s s' : State) :
  exec op s = Some s' ->
  (mSynchronousMode s = true -> mSynchronousMode s' = true) /\
  (0 <= mFrameRate s <= MAX_FRAME_RATE ->
   0 <= mFrameRate s' <= MAX_FRAME_RATE) /\
  (exists k, mQueue s' = drop k (mQueue s)) /\
  (connected_api_ok (mConnectedApi s) ->
   connected_api_ok (mConnectedApi s')).
Proof.
  destruct op; simpl; intros H.
  - apply setBufferCountServerLocked_same in H.
    apply more_same; tauto.
  - unfold setBufferCount in H.
    destruct (bufferCount >? NUM_BUFFER_SLOTS); simpl in H;
      [injection H as <-; apply more_same; reflexivity|].
    destruct (client_owns_buffers _ _) as [[|]|]; simpl in H;
      [injection H as <-; apply more_same; reflexivity| |discriminate].
    destruct (bufferCount =? 0).
    + apply setBufferCountServerLocked_same in H. simpl in H.
      apply more_same; tauto.
    + destruct (bufferCount <? MIN_ASYNC_BUFFER_SLOTS); simpl in H;
        injection H as <-; [apply more_same; reflexivity|].
      split; [tauto|]. split; [tauto|]. split; [|tauto].
      exists (length (mQueue s)). simpl. rewrite drop_all. reflexivity.
  - unfold requestBuffer in H.
    destruct ((slot <? 0) || (mBufferCount s <=? slot)); simpl in H;
      [injection H as <-; apply more_same; reflexivity|].
    destruct (mSlots s !! Z.to_nat slot); simpl in H; [|discriminate].
    injection H as <-. apply more_same; reflexivity.
  - unfold setSynchronousMode in H.
    destruct (mStopped s); simpl in H;
      [injection H as <-; apply more_same; reflexivity|].
    destruct enabled; simpl in H;
      [|injection H as <-; apply more_same; reflexivity].
    match type of H with
    | context [if ?c then _ else _] => destruct c
    end; simpl in H; injection H as <-; [|apply more_same; reflexivity].
    split; [reflexivity|]. split; [tauto|].
    split; [exists 0%nat; reflexivity|tauto].
  - unfold connect in H.
    destruct (mStopped s); simpl in H;
      [injection H as <-; apply more_same; reflexivity|].
    destruct (is_producer_api api) eqn:Hapi; simpl in H;
      [|injection H as <-; apply more_same; reflexivity].
    destruct (api_eqb (mConnectedApi s) NO_CONNECTED_API); simpl in H;
      injection H as <-; [|apply more_same; reflexivity].
    split; [tauto|]. split; [tauto|].
    split; [exists 0%nat; reflexivity|].
    intros _. right. exact Hapi.
  - unfold disconnect in H.
    destruct (mStopped s); simpl in H;
      [injection H as <-; apply more_same; reflexivity|].
    destruct (is_producer_api api); simpl in H;
      [|injection H as <-; apply more_same; reflexivity].
    destruct (api_eqb (mConnectedApi s) api); simpl in H;
      injection H as <-; [|apply more_same; reflexivity].
    split; [tauto|]. split; [tauto|].
    split; [exists 0%nat; reflexivity|].
    intros _. left. reflexivity.
  - injection H as <-. apply more_same; reflexivity.
  - unfold setFrameRate in H.
    destruct (Z.ltb_spec fps 0); simpl in H;
      [injection H as <-; apply more_same; reflexivity|].
    destruct (Z.gtb_spec fps MAX_FRAME_RATE); simpl in H;
      injection H as <-; [apply more_same; reflexivity|].
    split; [tauto|]. split; [simpl; lia|].
    split; [exists 0%nat; reflexivity|tauto].
  - unfold start in H. destruct params; simpl in H; injection H as <-;
      apply more_same; reflexivity.
  - injection H as <-.
    split; [tauto|]. split; [tauto|]. split; [|tauto].
    exists (length (mQueue s)). simpl. rewrite drop_all. reflexivity.
  - unfold read in H. destruct (mStopped s); simpl in H;
      [injection H as <-; apply more_same; reflexivity|].
    destruct (mQueue s) as [|front rest] eqn:Hq; simpl in H; [discriminate|].
    destruct (slot_at _ _) as [sl|]; [|discriminate].
    destruct (passMetadataBufferLocked _); simpl in H; [|discriminate].
    injection H as <-.
    split; [tauto|]. split; [tauto|]. split; [|tauto].
    exists 1%nat. reflexivity.
  - destruct (mStopped s) eqn:Hp.
    + unfold signalBufferReturned in H. rewrite Hp in H.
      injection H as <-. apply more_same; reflexivity.
    + destruct (signalBufferReturned buffer s) as [[] s0 evs| | |] eqn:Hret;
        simpl in H; try discriminate.
      injection H as <-.
      destruct (signal_returns_inv _ _ _ _ Hp Hret) as (id & _ & _ & -> & _).
      apply more_same; reflexivity.
  - injection H as <-. apply more_same; reflexivity.
  - injection H as <-. apply more_same; reflexivity.
Qed.

Lemma run_more (ops : list Op) (s s' : State) :
  run ops s = Some s' ->
  (mSynchronousMode s = true -> mSynchronousMode s' = true) /\
  (0 <= mFrameRate s <= MAX_FRAME_RATE ->
   0 <= mFrameRate s' <= MAX_FRAME_RATE) /\
  (exists k, mQueue s' = drop k (mQueue s)) /\
  (connected_api_ok (mConnectedApi s) ->
   connected_api_ok (mConnectedApi s')).
Proof.
  revert s. induction ops as [|op ops IH]; intros s; simpl.
  - intros H. injection H as <-. apply more_same; reflexivity.
  - destruct (exec op s) as [s1|] eqn:Hexec; [|discriminate].
    intros Hrun.
    destruct (exec_more _ _ _ Hexec) as (Hm1 & Hf1 & [k1 Hq1] & Ha1).
    destruct (IH _ Hrun) as (Hm2 & Hf2 & [k2 Hq2] & Ha2).
    split; [tauto|]. split; [tauto|]. split; [|tauto].
    exists (k1 + k2)%nat. rewrite Hq2, Hq1. apply drop_drop.
Qed.

(** X11.  Synchronous mode cannot be left.  Once [mSynchronousMode] is
    set, it is set after every sequence of calls that runs to its
    end. *)
Theorem synchronous_mode_stays_on (ops : list Op) (s s' : State) :
  mSynchronousMode s = true ->
  run ops s = Some s' ->
  mSynchronousMode s' = true.
Proof.
  intros Hm Hrun. destruct (run_more _ _ _ Hrun) as (H & _). exact (H Hm).
Qed.

(** X12.  Nothing in this class puts a frame into the Ready Queue or
    reorders it.  After every sequence of calls the queue is what is left
    of the queue before when some number of entries is taken off its
    front: reads take one, a client count and [stop] take all. *)
Theorem queue_only_consumed (ops : list Op) (s s' : State) :
  run ops s = Some s' ->
  exists k : nat,
    mQueue s' = drop k (mQueue s) /\
    (getQueuedCount s' <= getQueuedCount s)%nat.
Proof.
  intros Hrun. destruct (run_more _ _ _ Hrun) as (_ & _ & [k Hk] & _).
  exists k. split; [exact Hk|]. unfold getQueuedCount.
  rewrite Hk, length_drop. lia.
Qed.


(** *** Returning records *)

Lemma slot_matches_after_free (s : State) (buffer : MediaBuffer)
    (id j : nat) :
  slot_matches (set_mSlots (alter (set_slot_state FREE) id (mSlots s)) s)
    buffer j <->
  slot_matches s buffer j.
Proof.
  unfold slot_matches. simpl. split.
  - intros (sl & gb & Hsl & Hgb & Hh).
    rewrite list_lookup_alter in Hsl.
    destruct (decide (id = j)) as [-> | Hne].
    + destruct (mSlots s !! j) as [sl0|]; simpl in Hsl; [|discriminate].
      injection Hsl as <-. exists sl0, gb. auto.
    + exists sl, gb. auto.
  - intros (sl & gb & Hsl & Hgb & Hh).
    destruct (decide (id = j)) as [-> | Hne].
    + exists (set_slot_state FREE sl), gb.
      rewrite list_lookup_alter, decide_True by reflexivity.
      rewrite Hsl. auto.
    + exists sl, gb. rewrite list_lookup_alter_ne by congruence. auto.
Qed.

Lemma alter_free_twice (id : nat) (l : list BufferSlot) :
  alter (set_slot_state FREE) id (alter (set_slot_state FREE) id l) =
  alter (set_slot_state FREE) id l.
Proof.
  apply list_eq. intros j. rewrite !list_lookup_alter.
  destruct (decide (id = j)) as [-> | Hne]; [|reflexivity].
  rewrite ?decide_True by reflexivity.
  destruct (l !! j); reflexivity.
Qed.

(** X14.  A second return of the same record is not noticed.  When
    [signalBufferReturned] has returned for a record on a running
    session, the same call again returns as well, frees the same slot
    again, which changes nothing, and signals both conditions once
    more: the slot keeps its buffer, so the handle still matches. *)
Theorem signalBufferReturned_twice (buffer : MediaBuffer) (s s' : State)
    (evs : list Event) :
  wf_state s ->
  mStopped s = false ->
  signalBufferReturned buffer s = Done tt s' evs ->
  signalBufferReturned buffer s' = Done tt s' evs /\
  evs = returned_events /\
  (forall j, mGraphicBuffer <$> mSlots s' !! j =
             mGraphicBuffer <$> mSlots s !! j).
Proof.
  intros Hwf Hrun Hret.
  destruct (signal_returns_inv _ _ _ _ Hrun Hret)
    as (id & Hm & Hfirst & -> & ->).
  split; [|split; [reflexivity|]].
  - rewrite (signal_first_match buffer _ id).
    + unfold set_mSlots at 1. simpl. rewrite alter_free_twice. reflexivity.
    + exact Hrun.
    + destruct Hwf as [Hlen Hcnt]. split; [|exact Hcnt].
      simpl. rewrite length_alter. exact Hlen.
    + apply slot_matches_after_free. exact Hm.
    + intros j Hj Hmj. apply slot_matches_after_free in Hmj.
      exact (Hfirst j Hj Hmj).
  - intros j. simpl. rewrite list_lookup_alter.
    destruct (decide (id = j)) as [-> | Hne]; [|reflexivity].
    destruct (mSlots s !! j); reflexivity.
Qed.

(** X15.  The round trip of a frame at any slot.  On a running session
    whose first queue entry is slot [i], holding a buffer whose handle no
    slot of lower index shares, [read] returns the record of slot [i] and
    [signalBufferReturned] on that record returns with slot [i] in state
    FREE, its buffer and time stamp as before, and every other slot
    unchanged. *)
Theorem read_then_return_frees_slot (s : State) (i : nat) (sl : BufferSlot)
    (gb : GraphicBuffer) (rest : list Z) :
  wf_state s ->
  mStopped s = false ->
  mQueue s = Z.of_nat i :: rest ->
  mSlots s !! i = Some sl ->
  mGraphicBuffer sl = Some gb ->
  handle_fits (handle gb) ->
  (forall j slj gbj,
     (j < i)%nat -> mSlots s !! j = Some slj ->
     mGraphicBuffer slj = Some gbj -> handle gbj <> handle gb) ->
  exists (record : MediaBuffer) (s1 s2 : State) (sl' : BufferSlot),
    read s = Done (OK, Some record) s1 [] /\
    signalBufferReturned record s1 = Done tt s2 returned_events /\
    mSlots s2 !! i = Some sl' /\
    mBufferState sl' = FREE /\
    mGraphicBuffer sl' = Some gb /\
    mTimestamp sl' = mTimestamp sl /\
    (forall j, j <> i -> mSlots s2 !! j = mSlots s !! j).
Proof.
  intros Hwf Hrun Hq Hsl Hgb Hfits Hlow.
  assert (Hat : slot_at (mSlots s) (Z.of_nat i) = Some sl).
  { unfold slot_at. destruct (Z.ltb_spec (Z.of_nat i) 0); [lia|].
    rewrite Nat2Z.id. exact Hsl. }
  destruct (read_front s (Z.of_nat i) rest sl gb Hrun Hq Hat Hgb)
    as (b & s1 & Hread & (Hdata & _) & (_ & Hs1 & Hrun1) & _ & (_ & _ & Hc1)).
  assert (Hrec : record_handle b = Some (handle gb))
    by (eapply record_handle_le_split; eassumption).
  exists b, s1, (set_mSlots (alter (set_slot_state FREE) i (mSlots s1)) s1),
    (set_slot_state FREE sl).
  split; [exact Hread|]. split.
  - apply signal_first_match.
    + exact Hrun1.
    + destruct Hwf as [Hlen Hcnt]. split; rewrite ?Hs1, ?Hc1; assumption.
    + exists sl, gb. rewrite Hs1. auto.
    + intros j Hj (slj & gbj & Hslj & Hgbj & Hh). rewrite Hs1 in Hslj.
      apply (Hlow j slj gbj Hj Hslj Hgbj). congruence.
  - simpl. rewrite Hs1. split.
    { rewrite list_lookup_alter, decide_True by reflexivity.
      rewrite Hsl. reflexivity. }
    split; [reflexivity|]. split; [exact Hgb|]. split; [reflexivity|].
    intros j Hj. apply list_lookup_alter_ne. congruence.
Qed.

(** *** Frame rate, format and queries *)

(** X16.  [setFrameRate] accepts exactly the rates from 0 to 60.  An
    accepted rate is what [getFrameRate] and the frame-rate entry of
    [getFormat] report afterwards, the other entries staying as they
    were; a rate outside the range gives [BAD_VALUE] and changes nothing.
    In every format the stride is the width and the slice height is the
    height. *)
Theorem setFrameRate_round_trip {Color Mime : Type} (color : Color)
    (mime : Mime) (fps : Z) (s : State) :
  (0 <= fps <= 60 ->
   exists s',
     setFrameRate fps s = Done OK s' [] /\
     getFrameRate s' = fps /\
     getFormat color mime s' =
       {| kKeyWidth := kKeyWidth (getFormat color mime s);
          kKeyHeight := kKeyHeight (getFormat color mime s);
          kKeyColorFormat := color;
          kKeyStride := kKeyWidth (getFormat color mime s);
          kKeySliceHeight := kKeyHeight (getFormat color mime s);
          kKeyFrameRate := fps;
          kKeyMIMEType := mime |}) /\
  (fps < 0 \/ 60 < fps ->
   setFrameRate fps s = Done BAD_VALUE s []).
Proof.
  unfold setFrameRate, MAX_FRAME_RATE. split.
  - intros Hin. destruct (Z.ltb_spec fps 0); [lia|].
    destruct (Z.gtb_spec fps 60); [lia|]. simpl.
    eexists. split; [reflexivity|]. split; reflexivity.
  - intros Hout. destruct (Z.ltb_spec fps 0); [reflexivity|].
    destruct (Z.gtb_spec fps 60); [reflexivity|lia].
Qed.

Lemma wrap_signed_32_small (x : Z) :
  - 2 ^ 31 <= x < 2 ^ 31 -> wrap_signed 32 x = x.
Proof.
  intros Hx. unfold wrap_signed. change (32 - 1) with 31.
  rewrite Z.mod_small; lia.
Qed.

Lemma wrap_signed_32_high (x : Z) :
  2 ^ 31 <= x < 2 ^ 32 -> wrap_signed 32 x = x - 2 ^ 32.
Proof.
  intros Hx. unfold wrap_signed. change (32 - 1) with 31.
  replace (x + 2 ^ 31) with (x - 2 ^ 31 + 1 * 2 ^ 32) by lia.
  rewrite Z.mod_add by lia. rewrite Z.mod_small; lia.
Qed.

(** X17.  [query] answers through an [int].  With one of the two
    default sizes set, the width and height are the defaults, as they are
    below 2^31 and less 2^32 from there on (the largest [uint32_t] comes
    out as -1).  With both defaults zero the answer is the size of the
    current buffer, so that after a [read] it is the size of the buffer
    just delivered, and zero while there is no current buffer.  In
    synchronous mode the minimum of undequeued buffers is one less than
    the constant.  A key [query] does not know gives [BAD_VALUE] and no
    value. *)
Theorem query_answers (pixelFormat minUndequeued : Z) (s : State) :
  (0 <= mDefaultWidth s < 2 ^ 32 ->
   0 <= mDefaultHeight s < 2 ^ 32 ->
   mDefaultWidth s <> 0 \/ mDefaultHeight s <> 0 ->
   query pixelFormat minUndequeued NATIVE_WINDOW_WIDTH s =
     (NO_ERROR,
      Some (if mDefaultWidth s <? 2 ^ 31 then mDefaultWidth s
            else mDefaultWidth s - 2 ^ 32)) /\
   query pixelFormat minUndequeued NATIVE_WINDOW_HEIGHT s =
     (NO_ERROR,
      Some (if mDefaultHeight s <? 2 ^ 31 then mDefaultHeight s
            else mDefaultHeight s - 2 ^ 32))) /\
  (mDefaultWidth s = 0 -> mDefaultHeight s = 0 ->
   (mCurrentBuf s = None ->
    query pixelFormat minUndequeued NATIVE_WINDOW_WIDTH s =
      (NO_ERROR, Some 0) /\
    query pixelFormat minUndequeued NATIVE_WINDOW_HEIGHT s =
      (NO_ERROR, Some 0)) /\
   (forall i rest sl gb,
      mStopped s = false -> mQueue s = i :: rest ->
      slot_at (mSlots s) i = Some sl -> mGraphicBuffer sl = Some gb ->
      - 2 ^ 31 <= width gb < 2 ^ 31 ->
      - 2 ^ 31 <= height gb < 2 ^ 31 ->
      exists b s1,
        read s = Done (OK, Some b) s1 [] /\
        query pixelFormat minUndequeued NATIVE_WINDOW_WIDTH s1 =
          (NO_ERROR, Some (width gb)) /\
        query pixelFormat minUndequeued NATIVE_WINDOW_HEIGHT s1 =
          (NO_ERROR, Some (height gb)))) /\
  (mSynchronousMode s = true ->
   - 2 ^ 31 < minUndequeued <= 2 ^ 31 ->
   query pixelFormat minUndequeued NATIVE_WINDOW_MIN_UNDEQUEUED_BUFFERS s =
     (NO_ERROR, Some (minUndequeued - 1))) /\
  (forall n,
     query pixelFormat minUndequeued (OTHER_QUERY n) s = (BAD_VALUE, None)).
Proof.
  split; [|split; [|split]].
  - intros Hw Hh Hdef.
    assert (Hnarrow : forall x, 0 <= x < 2 ^ 32 ->
              wrap_signed 32 x = if x <? 2 ^ 31 then x else x - 2 ^ 32).
    { intros x Hx. destruct (Z.ltb_spec x (2 ^ 31)).
      - apply wrap_signed_32_small. lia.
      - apply wrap_signed_32_high. lia. }
    unfold query.
    replace ((mDefaultWidth s =? 0) && (mDefaultHeight s =? 0)) with false.
    + rewrite !Hnarrow by assumption. split; reflexivity.
    + symmetry. apply andb_false_iff.
      destruct Hdef as [Hne | Hne]; [left|right]; apply Z.eqb_neq; exact Hne.
  - intros Hw Hh. split.
    + intros Hnone. unfold query. rewrite Hw, Hh, Hnone. simpl.
      split; reflexivity.
    + intros i rest sl gb Hrun Hq Hsl Hgb Hwr Hhr.
      destruct (read_front s i rest sl gb Hrun Hq Hsl Hgb)
        as (b & s1 & Hread & _ & _ & (_ & Hbuf & _) & (Hw1 & Hh1 & _)).
      exists b, s1. split; [exact Hread|]. unfold query.
      rewrite Hw1, Hh1, Hw, Hh, Hbuf. simpl.
      rewrite !wrap_signed_32_small by assumption. split; reflexivity.
  - intros Hm Hrange. unfold query. rewrite Hm.
    rewrite wrap_signed_32_small by lia. reflexivity.
  - intros n. reflexivity.
Qed.

End Properties.

(** ** The properties on the example sessions *)

#[local] Existing Instance example_constants.

Lemma example_queued_wf : wf_state example_queued.
Proof. split; [reflexivity|]. simpl. lia. Qed.

Lemma example_idle_wf : wf_state example_idle.
Proof. split; [reflexivity|]. simpl. lia. Qed.

Lemma example_twins_wf : wf_state example_twins.
Proof. split; [reflexivity|]. simpl. lia. Qed.

Lemma replicate_empty_slot (n i : nat) (sl : BufferSlot) :
  replicate n empty_slot !! i = Some sl -> sl = empty_slot.
Proof. intros H. apply lookup_replicate in H. tauto. Qed.



Lemma read_then_return_frees_slot0_witness :
  wf_state example_queued /\
  mStopped example_queued = false /\
  mQueue example_queued = [0] /\
  mSlots example_queued !! 0%nat = Some (queued_slot 3735928559 100) /\
  mBufferState (queued_slot 3735928559 100) = QUEUED /\
  handle_fits 3735928559 /\
  exists (record : MediaBuffer) (s1 s2 : State) (sl' : BufferSlot),
    read example_queued = Done (OK, Some record) s1 [] /\
    mb_data record = le_split 4 1 ++ le_split 4 3735928559 /\
    length (mb_data record) = 8%nat /\
    mQueue s1 = [] /\
    signalBufferReturned record s1 = Done tt s2 returned_events /\
    mSlots s2 !! 0%nat = Some sl' /\
    mBufferState sl' = FREE /\
    mGraphicBuffer sl' =
      Some {| handle := 3735928559; width := 640; height := 480 |} /\
    mTimestamp sl' = 100 /\
    mRequestBufferCalled sl' = true.
Proof.
  assert (Hfits : handle_fits 3735928559) by (unfold handle_fits; simpl; lia).
  split; [exact example_queued_wf|]. split; [reflexivity|].
  split; [reflexivity|]. split; [reflexivity|]. split; [reflexivity|].
  split; [exact Hfits|].
  exact (read_then_return_frees_slot0 example_queued
           (queued_slot 3735928559 100)
           {| handle := 3735928559; width := 640; height := 480 |} []
           example_queued_wf eq_refl eq_refl eq_refl eq_refl Hfits).
Defined.

Lemma example_queued_no_12345 (j : nat) (sl : BufferSlot)
    (gb : GraphicBuffer) :
  mSlots example_queued !! j = Some sl -> mGraphicBuffer sl = Some gb ->
  handle gb <> 12345.
Proof.
  destruct j as [|j]; simpl; intros Hsl Hgb.
  - injection Hsl as <-. injection Hgb as <-. discriminate.
  - apply (replicate_empty_slot 31 j) in Hsl. subst sl. discriminate Hgb.
Qed.

Lemma signalBufferReturned_bogus_buffer_witness :
  mStopped example_disconnected = true /\
  signalBufferReturned (example_record 12345) example_disconnected =
    Done tt example_disconnected [] /\
  mStopped example_queued = false /\
  wf_state example_queued /\
  record_handle (example_record 12345) = Some 12345 /\
  signalBufferReturned (example_record 12345) example_queued = Fatal.
Proof.
  destruct (signalBufferReturned_bogus_buffer (example_record 12345)
              example_disconnected) as [Hstopped _].
  destruct (signalBufferReturned_bogus_buffer (example_record 12345)
              example_queued) as [_ Hrunning].
  split; [reflexivity|]. split; [exact (Hstopped eq_refl)|].
  split; [reflexivity|]. split; [exact example_queued_wf|].
  split; [reflexivity|].
  exact (Hrunning eq_refl example_queued_wf 12345 eq_refl
           example_queued_no_12345).
Defined.

Lemma read_stopped_end_of_stream_witness :
  mStopped example_disconnected = true /\
  mQueue example_disconnected = [0] /\
  read example_disconnected =
    Done (ERROR_END_OF_STREAM, None) example_disconnected [].
Proof.
  split; [reflexivity|]. split; [reflexivity|].
  exact (read_stopped_end_of_stream example_disconnected eq_refl).
Defined.

(** [connect] on a stopped session answers [NO_INIT], which is not the
    invalid-argument result. *)
Lemma connect_stopped_counterexample :
  is_producer_api NATIVE_WINDOW_API_CPU = true /\
  mStopped example_disconnected = true /\
  connect NATIVE_WINDOW_API_CPU example_disconnected =
    Done (NO_INIT, None) example_disconnected [] /\
  ~ (exists out s' evs,
       connect NATIVE_WINDOW_API_CPU example_disconnected =
       Done (NEG_EINVAL, out) s' evs).
Proof.
  split; [reflexivity|]. split; [reflexivity|]. split; [reflexivity|].
  intros (out & s' & evs & H). discriminate H.
Qed.

Lemma connect_failures_witness :
  is_producer_api NATIVE_WINDOW_API_EGL = true /\
  mStopped example_disconnected = true /\
  connect NATIVE_WINDOW_API_EGL example_disconnected =
    Done (NO_INIT, None) example_disconnected [] /\
  mStopped example_queued = false /\
  mConnectedApi example_queued <> NO_CONNECTED_API /\
  connect NATIVE_WINDOW_API_EGL example_queued =
    Done (NEG_EINVAL, None) example_queued [].
Proof.
  assert (Hconn : mConnectedApi example_queued <> NO_CONNECTED_API)
    by discriminate.
  destruct (connect_failures NATIVE_WINDOW_API_EGL example_disconnected
              eq_refl) as [Hstopped _].
  destruct (connect_failures NATIVE_WINDOW_API_EGL example_queued eq_refl)
    as [_ Hbusy].
  split; [reflexivity|]. split; [reflexivity|].
  split; [exact (Hstopped eq_refl)|]. split; [reflexivity|].
  split; [exact Hconn|]. exact (Hbusy eq_refl Hconn).
Defined.

Lemma example_idle_none_dequeued (i : nat) (sl : BufferSlot) :
  mSlots example_idle !! i = Some sl -> mBufferState sl <> DEQUEUED.
Proof.
  intros Hsl. apply (replicate_empty_slot 32 i) in Hsl. subst sl.
  discriminate.
Qed.

(** With no slot DEQUEUED, [setBufferCount(1)] answers [BAD_VALUE], not
    the illegal-state result [INVALID_OPERATION]. *)
Lemma setBufferCount_one_counterexample :
  (forall i sl, mSlots example_idle !! i = Some sl ->
                mBufferState sl <> DEQUEUED) /\
  setBufferCount 1 example_idle = Done BAD_VALUE example_idle [] /\
  ~ (exists s' evs,
       setBufferCount 1 example_idle = Done INVALID_OPERATION s' evs).
Proof.
  split; [exact example_idle_none_dequeued|]. split; [reflexivity|].
  intros (s' & evs & H). discriminate H.
Qed.

Lemma setBufferCount_boundaries_witness :
  wf_state example_idle /\
  (forall i sl, mSlots example_idle !! i = Some sl ->
                mBufferState sl <> DEQUEUED) /\
  1 < 3 <= 32 /\
  setBufferCount 32 example_idle =
    Done OK
      (freeAllBuffersLocked
         (set_mQueue []
            (set_mCurrentSlot (-1)
               (set_mClientBufferCount 32
                  (set_mBufferCount 32 example_idle)))))
      [Signal mDequeueCondition] /\
  setBufferCount 33 example_idle = Done BAD_VALUE example_idle [] /\
  setBufferCount 1 example_idle = Done BAD_VALUE example_idle [].
Proof.
  assert (Hmin : 1 < 3 <= 32) by lia.
  split; [exact example_idle_wf|].
  split; [exact example_idle_none_dequeued|]. split; [exact Hmin|].
  exact (setBufferCount_boundaries (HC := example_constants) example_idle
           example_idle_wf example_idle_none_dequeued Hmin).
Defined.

(** [setSynchronousMode(false)] on a stopped session answers [NO_INIT],
    a result other than illegal state. *)
Lemma setSynchronousMode_stopped_counterexample :
  setSynchronousMode false example_disconnected =
    Done NO_INIT example_disconnected [] /\
  ~ (exists s' evs,
       setSynchronousMode false example_disconnected =
       Done INVALID_OPERATION s' evs).
Proof.
  split; [reflexivity|]. intros (s' & evs & H). discriminate H.
Qed.



Lemma example_twins_match_1 :
  slot_matches example_twins (example_record 48879) 1.
Proof.
  exists (queued_slot 48879 100),
    {| handle := 48879; width := 640; height := 480 |}.
  split; [reflexivity|]. split; reflexivity.
Qed.

Lemma example_twins_match_2 :
  slot_matches example_twins (example_record 48879) 2.
Proof.
  exists (queued_slot 48879 200),
    {| handle := 48879; width := 640; height := 480 |}.
  split; [reflexivity|]. split; reflexivity.
Qed.

Lemma example_twins_first (j : nat) :
  (j < 1)%nat -> ~ slot_matches example_twins (example_record 48879) j.
Proof.
  intros Hj (sl & gb & Hsl & Hgb & _).
  destruct j as [|j]; [|lia]. simpl in Hsl. injection Hsl as <-.
  discriminate Hgb.
Qed.

Lemma signalBufferReturned_frees_lowest_match_witness :
  mStopped example_twins = false /\
  wf_state example_twins /\
  slot_matches example_twins (example_record 48879) 1 /\
  slot_matches example_twins (example_record 48879) 2 /\
  mBufferState <$> mSlots example_twins !! 1%nat = Some QUEUED /\
  exists (s' : State) (sl' : BufferSlot),
    signalBufferReturned (example_record 48879) example_twins =
      Done tt s' returned_events /\
    mSlots s' !! 1%nat = Some sl' /\
    mBufferState sl' = FREE /\
    mGraphicBuffer sl' =
      Some {| handle := 48879; width := 640; height := 480 |} /\
    mSlots s' !! 2%nat = Some (queued_slot 48879 200) /\
    mBufferState (queued_slot 48879 200) = QUEUED /\
    mSlots s' !! 0%nat = Some empty_slot.
Proof.
  destruct (signalBufferReturned_frees_lowest_match (example_record 48879)
              example_twins eq_refl example_twins_wf) as [Hfirst _].
  destruct (Hfirst 1%nat example_twins_match_1 example_twins_first)
    as (s' & sl & sl' & Hret & Hsl & Hsl' & Hfree & Hbuf & _ & _ & Hothers).
  split; [reflexivity|]. split; [exact example_twins_wf|].
  split; [exact example_twins_match_1|].
  split; [exact example_twins_match_2|]. split; [reflexivity|].
  exists s', sl'. split; [exact Hret|]. split; [exact Hsl'|].
  split; [exact Hfree|].
  simpl in Hsl. injection Hsl as <-. split; [exact Hbuf|].
  split; [rewrite (Hothers 2%nat) by lia; reflexivity|].
  split; [reflexivity|]. rewrite (Hothers 0%nat) by lia. reflexivity.
Defined.

Lemma example_disconnected_wf : wf_state example_disconnected.
Proof. split; [reflexivity|]. simpl. lia. Qed.


(** ** The further properties on the example sessions *)

Lemma example_two_frames_wf : wf_state example_two_frames.
Proof. split; [reflexivity|]. simpl. lia. Qed.

Lemma example_client_count_wf : wf_state example_client_count.
Proof. split; [reflexivity|]. simpl. lia. Qed.

Lemma example_dequeued_wf : wf_state example_dequeued.
Proof. split; [reflexivity|]. simpl. lia. Qed.

Lemma read_delivers_front_witness :
  mStopped example_queued = false /\
  mQueue example_queued = [0] /\
  slot_at (mSlots example_queued) 0 = Some (queued_slot 3735928559 100) /\
  exists (b : MediaBuffer) (s1 : State),
    read example_queued = Done (OK, Some b) s1 [] /\
    record_of_slot (mSlots example_queued) 0 b /\
    S (getQueuedCount s1) = getQueuedCount example_queued /\
    mQueue s1 = [] /\
    mSlots s1 = mSlots example_queued /\
    mCurrentSlot s1 = 0 /\
    getCurrentBuffer s1 =
      Some {| handle := 3735928559; width := 640; height := 480 |} /\
    getTimestamp s1 = 100.
Proof.
  split; [reflexivity|]. split; [reflexivity|]. split; [reflexivity|].
  exact (read_delivers_front (HC := example_constants) example_queued 0 []
           (queued_slot 3735928559 100)
           {| handle := 3735928559; width := 640; height := 480 |}
           eq_refl eq_refl eq_refl eq_refl).
Defined.

Lemma example_two_frames_hold :
  Forall (holds_buffer (mSlots example_two_frames))
    (mQueue example_two_frames).
Proof.
  repeat constructor.
  - exists (queued_slot 8192 1000),
      {| handle := 8192; width := 640; height := 480 |}.
    split; reflexivity.
  - exists (queued_slot 4096 2000999),
      {| handle := 4096; width := 640; height := 480 |}.
    split; reflexivity.
Qed.

Lemma read_frames_fifo_witness :
  mStopped example_two_frames = false /\
  Forall (holds_buffer (mSlots example_two_frames)) [1; 0] /\
  exists (bs : list MediaBuffer) (s' : State),
    read_frames 2 example_two_frames = (bs, Done OK s' []) /\
    Forall2 (record_of_slot (mSlots example_two_frames)) [1; 0] bs /\
    mQueue s' = [] /\
    mSlots s' = mSlots example_two_frames /\
    read s' = Blocked.
Proof.
  split; [reflexivity|]. split; [exact example_two_frames_hold|].
  exact (read_frames_fifo (HC := example_constants) example_two_frames
           eq_refl example_two_frames_hold).
Defined.

Lemma passMetadataBufferLocked_layout_witness :
  mCurrentBuf example_idle = None /\
  passMetadataBufferLocked example_idle = None /\
  handle_fits 8192 /\
  0 <= 1 < 2 ^ 32 /\
  exists b,
    passMetadataBufferLocked
      (set_mCurrentBuf
         (Some {| handle := 8192; width := 640; height := 480 |})
         example_idle) = Some b /\
    length (mb_data b) = 8%nat /\
    le_combine (take 4 (mb_data b)) = 1 /\
    record_handle b = Some 8192.
Proof.
  assert (Hfits : handle_fits 8192) by (unfold handle_fits; simpl; lia).
  assert (Htag : 0 <= 1 < 2 ^ 32) by lia.
  destruct (passMetadataBufferLocked_layout (HC := example_constants)
              example_idle) as [Hnone _].
  destruct (passMetadataBufferLocked_layout (HC := example_constants)
              (set_mCurrentBuf
                 (Some {| handle := 8192; width := 640; height := 480 |})
                 example_idle)) as [_ Hsome].
  split; [reflexivity|]. split; [exact (Hnone eq_refl)|].
  split; [exact Hfits|]. split; [exact Htag|].
  exact (Hsome {| handle := 8192; width := 640; height := 480 |} eq_refl
           Hfits Htag).
Defined.

Lemma stopped_is_final_witness :
  wf_state example_disconnected /\
  mStopped example_disconnected = true /\
  exists s2 : State,
    run [OpRead; OpConnect NATIVE_WINDOW_API_EGL; OpSetBufferCount 4;
         OpSignalBufferReturned (example_record 7); OpSetFrameRate 24]
      example_disconnected = Some s2 /\
    mStopped s2 = true /\
    read s2 = Done (ERROR_END_OF_STREAM, None) s2 [] /\
    (forall api, connect api s2 = Done (NO_INIT, None) s2 []) /\
    (forall api, disconnect api s2 = Done NO_INIT s2 []) /\
    (forall enabled, setSynchronousMode enabled s2 = Done NO_INIT s2 []) /\
    (forall buffer, signalBufferReturned buffer s2 = Done tt s2 []).
Proof.
  split; [exact example_disconnected_wf|]. split; [reflexivity|].
  exact (stopped_is_final (HC := example_constants) example_disconnected _
           example_disconnected_wf eq_refl).
Defined.

Lemma connect_lifecycle_witness :
  is_producer_api NATIVE_WINDOW_API_CAMERA = true /\
  mStopped example_idle = false /\
  mConnectedApi example_idle = NO_CONNECTED_API /\
  exists s1 s2 : State,
    connect NATIVE_WINDOW_API_CAMERA example_idle =
      Done (NO_ERROR, Some (640, 480, 0)) s1 [] /\
    mConnectedApi s1 = NATIVE_WINDOW_API_CAMERA /\
    (forall api2, connect api2 s1 = Done (NEG_EINVAL, None) s1 []) /\
    (forall api2, api2 <> NATIVE_WINDOW_API_CAMERA ->
                  disconnect api2 s1 = Done NEG_EINVAL s1 []) /\
    disconnect NATIVE_WINDOW_API_CAMERA s1 =
      Done NO_ERROR s2
        [Signal mDequeueCondition; Signal mFrameAvailableCondition] /\
    mConnectedApi s2 = NO_CONNECTED_API /\
    (forall api3, connect api3 s2 = Done (NO_INIT, None) s2 []).
Proof.
  split; [reflexivity|]. split; [reflexivity|]. split; [reflexivity|].
  exact (connect_lifecycle NATIVE_WINDOW_API_CAMERA example_idle
           eq_refl eq_refl eq_refl).
Defined.

Lemma requestBuffer_bounds_witness :
  wf_state example_idle /\
  requestBuffer (-1) example_idle = Done (BAD_VALUE, None) example_idle []
  /\
  requestBuffer 3 example_idle = Done (BAD_VALUE, None) example_idle []
  /\
  mRequestBufferCalled <$> mSlots example_idle !! Z.to_nat 2 = Some false /\
  exists sl sl' s',
    mSlots example_idle !! Z.to_nat 2 = Some sl /\
    requestBuffer 2 example_idle =
      Done (NO_ERROR, Some (mGraphicBuffer sl)) s' [] /\
    mSlots s' !! Z.to_nat 2 = Some sl' /\
    mRequestBufferCalled sl' = true /\
    mBufferState sl' = mBufferState sl /\
    mGraphicBuffer sl' = mGraphicBuffer sl /\
    mTimestamp sl' = mTimestamp sl /\
    (forall j, j <> Z.to_nat 2 ->
               mSlots s' !! j = mSlots example_idle !! j).
Proof.
  assert (Hneg : -1 < 0 \/ mBufferCount example_idle <= -1)
    by (left; lia).
  assert (Hhigh : 3 < 0 \/ mBufferCount example_idle <= 3)
    by (right; simpl; lia).
  assert (Hin : 0 <= 2 < mBufferCount example_idle) by (simpl; lia).
  destruct (requestBuffer_bounds (HC := example_constants) (-1)
              example_idle example_idle_wf) as [Hout1 _].
  destruct (requestBuffer_bounds (HC := example_constants) 3
              example_idle example_idle_wf) as [Hout2 _].
  destruct (requestBuffer_bounds (HC := example_constants) 2
              example_idle example_idle_wf) as [_ Hok].
  split; [exact example_idle_wf|]. split; [exact (Hout1 Hneg)|].
  split; [exact (Hout2 Hhigh)|]. split; [reflexivity|]. exact (Hok Hin).
Defined.

Lemma setBufferCount_client_owns_witness :
  wf_state example_dequeued /\
  1 < mBufferCount example_dequeued /\
  mSlots example_dequeued !! 1%nat = Some dequeued_slot /\
  mBufferState dequeued_slot = DEQUEUED /\
  setBufferCount 4 example_dequeued =
    Done INVALID_OPERATION example_dequeued [] /\
  setBufferCount 0 example_dequeued =
    Done INVALID_OPERATION example_dequeued [] /\
  setBufferCount 33 example_dequeued = Done BAD_VALUE example_dequeued [].
Proof.
  assert (Hi : Z.of_nat 1 < mBufferCount example_dequeued) by (simpl; lia).
  pose proof (setBufferCount_client_owns (HC := example_constants)
                example_dequeued 1%nat dequeued_slot example_dequeued_wf
                Hi eq_refl eq_refl) as Hown.
  split; [exact example_dequeued_wf|]. split; [exact Hi|].
  split; [reflexivity|]. split; [reflexivity|].
  split; [apply (Hown 4); simpl; lia|].
  split; [apply (Hown 0); simpl; lia|].
  apply (Hown 33). simpl. lia.
Defined.

Lemma example_queued_none_dequeued (i : nat) (sl : BufferSlot) :
  Z.of_nat i < mBufferCount example_queued ->
  mSlots example_queued !! i = Some sl -> mBufferState sl <> DEQUEUED.
Proof.
  intros _. destruct i as [|i]; simpl; intros Hsl.
  - injection Hsl as <-. discriminate.
  - apply (replicate_empty_slot 31 i) in Hsl. subst sl. discriminate.
Qed.

Lemma setBufferCount_drops_frames_witness :
  wf_state example_queued /\
  mStopped example_queued = false /\
  mQueue example_queued = [0] /\
  0 < 4 /\ 3 <= 4 <= 32 /\
  exists s' : State,
    setBufferCount 4 example_queued = Done OK s' [Signal mDequeueCondition] /\
    mBufferCount s' = 4 /\ mClientBufferCount s' = 4 /\
    mCurrentSlot s' = -1 /\
    mQueue s' = [] /\
    all_slots_free (mSlots s') /\
    read s' = Blocked /\
    (forall buffer, signalBufferReturned buffer s' = Fatal).
Proof.
  assert (Hpos : 0 < 4) by lia.
  assert (Hk : 3 <= 4 <= 32) by lia.
  split; [exact example_queued_wf|]. split; [reflexivity|].
  split; [reflexivity|]. split; [exact Hpos|]. split; [exact Hk|].
  exact (setBufferCount_drops_frames (HC := example_constants) 4
           example_queued example_queued_wf eq_refl Hpos Hk
           example_queued_none_dequeued).
Defined.

Lemma example_client_count_none_dequeued (i : nat) (sl : BufferSlot) :
  Z.of_nat i < mBufferCount example_client_count ->
  mSlots example_client_count !! i = Some sl -> mBufferState sl <> DEQUEUED.
Proof.
  intros _ Hsl. apply (replicate_empty_slot 32 i) in Hsl. subst sl.
  discriminate.
Qed.

Lemma setBufferCount_zero_resets_witness :
  wf_state example_client_count /\
  2 <= 2 <= 32 /\ 2 <= 3 <= 32 /\
  mServerBufferCount example_client_count <= 32 /\
  mClientBufferCount example_client_count = 4 /\
  exists (s' : State) (evs : list Event),
    setBufferCount 0 example_client_count = Done OK s' evs /\
    mClientBufferCount s' = 0 /\
    mBufferCount s' = Z.max 4 (Z.max 5 2) /\
    mQueue s' = mQueue example_client_count /\
    mSlots s' = mSlots example_client_count /\
    mStopped s' = mStopped example_client_count.
Proof.
  assert (Hsync : 2 <= 2 <= 32) by lia.
  assert (Hasync : 2 <= 3 <= 32) by lia.
  assert (Hserver : mServerBufferCount example_client_count <= 32)
    by (simpl; lia).
  split; [exact example_client_count_wf|]. split; [exact Hsync|].
  split; [exact Hasync|]. split; [exact Hserver|]. split; [reflexivity|].
  exact (setBufferCount_zero_resets (HC := example_constants)
           example_client_count example_client_count_wf
           example_client_count_none_dequeued Hsync Hasync Hserver).
Defined.

Lemma client_count_outranks_server_witness :
  mClientBufferCount example_client_count <> 0 /\
  exists (r : status_t) (s' : State),
    setBufferCountServer 7 example_client_count = Done r s' [] /\
    mBufferCount s' = mBufferCount example_client_count /\
    mClientBufferCount s' = mClientBufferCount example_client_count /\
    mQueue s' = mQueue example_client_count /\
    mSlots s' = mSlots example_client_count /\
    (r = OK \/ r = BAD_VALUE) /\
    (r = BAD_VALUE -> s' = example_client_count).
Proof.
  assert (Hcl : mClientBufferCount example_client_count <> 0)
    by discriminate.
  split; [exact Hcl|].
  exact (client_count_outranks_server (HC := example_constants) 7
           example_client_count Hcl).
Defined.

Lemma synchronous_mode_stays_on_witness :
  mSynchronousMode example_two_frames = true /\
  exists s' : State,
    run [OpSetSynchronousMode false; OpRead; OpSetBufferCount 5;
         OpSetSynchronousMode true]
      example_two_frames = Some s' /\
    mSynchronousMode s' = true.
Proof.
  split; [reflexivity|].
  assert (Hrun : exists s' : State,
             run [OpSetSynchronousMode false; OpRead; OpSetBufferCount 5;
                  OpSetSynchronousMode true]
               example_two_frames = Some s')
    by (vm_compute; eexists; reflexivity).
  destruct Hrun as [s' Hrun]. exists s'. split; [exact Hrun|].
  exact (synchronous_mode_stays_on (HC := example_constants) _
           example_two_frames s' eq_refl Hrun).
Defined.

Lemma queue_only_consumed_witness :
  exists s' : State,
    run [OpRead; OpRequestBuffer 1; OpSetFrameRate 24] example_two_frames =
      Some s' /\
    mQueue s' = [0] /\
    exists k : nat,
      mQueue s' = drop k (mQueue example_two_frames) /\
      (getQueuedCount s' <= getQueuedCount example_two_frames)%nat.
Proof.
  assert (Hrun : exists s' : State,
             run [OpRead; OpRequestBuffer 1; OpSetFrameRate 24]
               example_two_frames = Some s' /\ mQueue s' = [0])
    by (vm_compute; eexists; split; reflexivity).
  destruct Hrun as (s' & Hrun & Hq). exists s'. split; [exact Hrun|].
  split; [exact Hq|].
  exact (queue_only_consumed (HC := example_constants) _
           example_two_frames s' Hrun).
Defined.


Lemma signalBufferReturned_twice_witness :
  wf_state example_twins /\
  mStopped example_twins = false /\
  exists s' : State,
    signalBufferReturned (example_record 48879) example_twins =
      Done tt s' returned_events /\
    signalBufferReturned (example_record 48879) s' =
      Done tt s' returned_events.
Proof.
  split; [exact example_twins_wf|]. split; [reflexivity|].
  assert (Hret : exists s' : State,
             signalBufferReturned (example_record 48879) example_twins =
             Done tt s' returned_events)
    by (vm_compute; eexists; reflexivity).
  destruct Hret as [s' Hret]. exists s'. split; [exact Hret|].
  exact (proj1 (signalBufferReturned_twice (HC := example_constants)
                  (example_record 48879) example_twins s' returned_events
                  example_twins_wf eq_refl Hret)).
Defined.

Lemma example_two_frames_low (j : nat) (slj : BufferSlot)
    (gbj : GraphicBuffer) :
  (j < 1)%nat -> mSlots example_two_frames !! j = Some slj ->
  mGraphicBuffer slj = Some gbj -> handle gbj <> 8192.
Proof.
  intros Hj. destruct j as [|j]; [|lia]. simpl. intros Hsl Hgb.
  injection Hsl as <-. injection Hgb as <-. discriminate.
Qed.

Lemma read_then_return_frees_slot_witness :
  wf_state example_two_frames /\
  mStopped example_two_frames = false /\
  mQueue example_two_frames = [1; 0] /\
  mSlots example_two_frames !! 1%nat = Some (queued_slot 8192 1000) /\
  mBufferState (queued_slot 8192 1000) = QUEUED /\
  handle_fits 8192 /\
  exists (record : MediaBuffer) (s1 s2 : State) (sl' : BufferSlot),
    read example_two_frames = Done (OK, Some record) s1 [] /\
    signalBufferReturned record s1 = Done tt s2 returned_events /\
    mSlots s2 !! 1%nat = Some sl' /\
    mBufferState sl' = FREE /\
    mGraphicBuffer sl' =
      Some {| handle := 8192; width := 640; height := 480 |} /\
    mTimestamp sl' = 1000 /\
    (forall j, j <> 1%nat ->
               mSlots s2 !! j = mSlots example_two_frames !! j).
Proof.
  assert (Hfits : handle_fits 8192) by (unfold handle_fits; simpl; lia).
  split; [exact example_two_frames_wf|]. split; [reflexivity|].
  split; [reflexivity|]. split; [reflexivity|]. split; [reflexivity|].
  split; [exact Hfits|].
  exact (read_then_return_frees_slot (HC := example_constants)
           example_two_frames 1%nat (queued_slot 8192 1000)
           {| handle := 8192; width := 640; height := 480 |} [0]
           example_two_frames_wf eq_refl eq_refl eq_refl eq_refl Hfits
           example_two_frames_low).
Defined.

Lemma setFrameRate_round_trip_witness :
  0 <= 24 <= 60 /\
  (exists s',
     setFrameRate 24 example_idle = Done OK s' [] /\
     getFrameRate s' = 24 /\
     getFormat tt tt s' =
       {| kKeyWidth := 640; kKeyHeight := 480; kKeyColorFormat := tt;
          kKeyStride := 640; kKeySliceHeight := 480; kKeyFrameRate := 24;
          kKeyMIMEType := tt |}) /\
  (61 < 0 \/ 60 < 61) /\
  setFrameRate 61 example_idle = Done BAD_VALUE example_idle [] /\
  setFrameRate (-1) example_idle = Done BAD_VALUE example_idle [].
Proof.
  assert (Hin : 0 <= 24 <= 60) by lia.
  assert (Hhigh : 61 < 0 \/ 60 < 61) by (right; lia).
  assert (Hlow : -1 < 0 \/ 60 < -1) by (left; lia).
  destruct (setFrameRate_round_trip tt tt 24 example_idle) as [Hok _].
  destruct (setFrameRate_round_trip tt tt 61 example_idle) as [_ Hbad1].
  destruct (setFrameRate_round_trip tt tt (-1) example_idle) as [_ Hbad2].
  split; [exact Hin|]. split; [exact (Hok Hin)|]. split; [exact Hhigh|].
  split; [exact (Hbad1 Hhigh)|exact (Hbad2 Hlow)].
Defined.

Lemma query_answers_witness :
  query 1 2 NATIVE_WINDOW_WIDTH example_queued = (NO_ERROR, Some 640) /\
  query 1 2 NATIVE_WINDOW_HEIGHT example_queued = (NO_ERROR, Some 480) /\
  mDefaultWidth example_wide = 4294967295 /\
  query 1 2 NATIVE_WINDOW_WIDTH example_wide = (NO_ERROR, Some (-1)) /\
  mDefaultWidth example_no_default_size = 0 /\
  mDefaultHeight example_no_default_size = 0 /\
  mCurrentBuf example_no_default_size = None /\
  query 1 2 NATIVE_WINDOW_WIDTH example_no_default_size =
    (NO_ERROR, Some 0) /\
  (exists b s1,
     read example_no_default_size = Done (OK, Some b) s1 [] /\
     query 1 2 NATIVE_WINDOW_WIDTH s1 = (NO_ERROR, Some 640) /\
     query 1 2 NATIVE_WINDOW_HEIGHT s1 = (NO_ERROR, Some 480)) /\
  mSynchronousMode example_queued = true /\
  query 1 2 NATIVE_WINDOW_MIN_UNDEQUEUED_BUFFERS example_queued =
    (NO_ERROR, Some 1).
Proof.
  assert (Hw : 0 <= mDefaultWidth example_queued < 2 ^ 32) by (simpl; lia).
  assert (Hh : 0 <= mDefaultHeight example_queued < 2 ^ 32) by (simpl; lia).
  assert (Hdef : mDefaultWidth example_queued <> 0 \/
                 mDefaultHeight example_queued <> 0)
    by (left; discriminate).
  assert (Hww : 0 <= mDefaultWidth example_wide < 2 ^ 32) by (simpl; lia).
  assert (Hwh : 0 <= mDefaultHeight example_wide < 2 ^ 32) by (simpl; lia).
  assert (Hwdef : mDefaultWidth example_wide <> 0 \/
                  mDefaultHeight example_wide <> 0)
    by (left; discriminate).
  assert (Hbw : - 2 ^ 31 <= 640 < 2 ^ 31) by lia.
  assert (Hbh : - 2 ^ 31 <= 480 < 2 ^ 31) by lia.
  assert (Hmu : - 2 ^ 31 < 2 <= 2 ^ 31) by lia.
  destruct (query_answers 1 2 example_queued) as (Hset & _ & Hmin & _).
  destruct (query_answers 1 2 example_wide) as (Hwide & _).
  destruct (query_answers 1 2 example_no_default_size)
    as (_ & Hzero & _ & _).
  destruct (Hset Hw Hh Hdef) as [Hqw Hqh].
  destruct (Hwide Hww Hwh Hwdef) as [Hqww _].
  destruct (Hzero eq_refl eq_refl) as [Hnone Hread].
  destruct (Hnone eq_refl) as [Hw0 _].
  split; [exact Hqw|]. split; [exact Hqh|]. split; [reflexivity|].
  split; [exact Hqww|].
  split; [reflexivity|]. split; [reflexivity|]. split; [reflexivity|].
  split; [exact Hw0|]. split.
  { exact (Hread 0 [] (queued_slot 3735928559 100)
             {| handle := 3735928559; width := 640; height := 480 |}
             eq_refl eq_refl eq_refl eq_refl Hbw Hbh). }
  split; [reflexivity|]. exact (Hmin eq_refl Hmu).
Defined.
